(** * YouTube comment extraction: a shallow embedding of
      [script/youtube_extraction.py] and the properties of its components.

    The class [YouTubeCommentsKeywordExtractor] is a set of methods over a
    remote API client.  The remote API is the only source of input besides
    the arguments, so every method that talks to it is embedded as a function
    of its arguments and of the replies the platform gives, in the order the
    method asks for them.  Characters are modelled as [ascii]; integers as
    [Z]; a Python [None] as [None]; an exception that leaves a method as
    [Raise].  The clock is an argument ([now]) wherever [datetime.now()] is
    read, and so is the outcome of the spreadsheet writer ([excel_writer])
    where the workbook is written; what is printed, and the pause between
    videos, are left out. *)

From stdpp Require Import strings list gmap.
From Stdlib Require Import Ascii ZArith Lia Sorting.Sorted.

Open Scope string_scope.

(** ** Results of fallible code *)

Inductive exn : Type :=
| IndexError
| ValueError
| OverflowError
| KeyError
| TypeError
| OSError
| IllegalCharacterError.

Inductive result (A : Type) : Type :=
| Return (a : A)
| Raise (e : exn).
Arguments Return {A} a.
Arguments Raise {A} e.

(** The error monad, with stdpp's [x ← r; k] notation. *)
#[global] Instance result_ret : MRet result := λ A a, Return a.
#[global] Instance result_bind : MBind result := λ A B k r,
  match r with
  | Return a => k a
  | Raise e => Raise e
  end.

(** ** Python string and list primitives used by the script *)

Module PyStr.

Fixpoint drop (n : nat) (s : string) : string :=
  match n, s with
  | O, _ => s
  | S _, "" => ""
  | S n', String _ s' => drop n' s'
  end.

(** [sub in s] *)
Fixpoint contains (sub s : string) : bool :=
  String.prefix sub s ||
  match s with
  | "" => false
  | String _ s' => contains sub s'
  end.

(** The text before and after the first occurrence of [sep], as
    [s.partition(sep)] finds it; [None] when [sep] does not occur. *)
Fixpoint cut (sep s : string) : option (string * string) :=
  if String.prefix sep s then Some ("", drop (String.length sep) s)
  else match s with
       | "" => None
       | String c s' =>
           match cut sep s' with
           | Some (b, a) => Some (String c b, a)
           | None => None
           end
       end.

(** [s.split(sep)] for a non-empty [sep]: the pieces between the
    occurrences of [sep], found from left to right without overlap.  Each
    round consumes at least one character, so [length s] rounds suffice. *)
Fixpoint split_fuel (fuel : nat) (sep s : string) : list string :=
  match fuel with
  | O => [s]
  | S fuel' =>
      match cut sep s with
      | None => [s]
      | Some (b, a) => b :: split_fuel fuel' sep a
      end
  end.

Definition split (sep s : string) : list string :=
  split_fuel (String.length s) sep s.

(** [s.endswith(suffix)] *)
Definition endswith (suffix s : string) : bool :=
  String.prefix (String.rev suffix) (String.rev s).

(** [l[i]] for [i >= 0] *)
Definition index {A : Type} (l : list A) (i : nat) : result A :=
  match l !! i with
  | Some x => Return x
  | None => Raise IndexError
  end.

(** Truth value of an optional string: [None] and [''] are false. *)
Definition truthy (o : option string) : bool :=
  match o with
  | Some (String _ _) => true
  | _ => false
  end.

End PyStr.

(** ** Identifier Resolver: [extract_video_id] *)

Definition extract_video_id (url : string) : result (option string) :=
  if PyStr.contains "youtube.com/watch?v=" url then
    tail ← PyStr.index (PyStr.split "v=" url) 1;
    id ← PyStr.index (PyStr.split "&" tail) 0;
    Return (Some id)
  else if PyStr.contains "youtu.be/" url then
    tail ← PyStr.index (PyStr.split "youtu.be/" url) 1;
    id ← PyStr.index (PyStr.split "?" tail) 0;
    Return (Some id)
  else if Nat.eqb (String.length url) 11 then
    Return (Some url)
  else
    Return None.

(** ** Date Range Builder: [get_date_range_iso] *)

Open Scope Z_scope.

Module PyDate.

(** A naive [datetime], as [datetime.now()] returns it (microseconds are
    never read by the script). *)
Record datetime : Type := mkDatetime {
  year : Z; month : Z; day : Z;
  hour : Z; minute : Z; second : Z
}.

Definition is_leap (y : Z) : bool :=
  (y mod 4 =? 0) && (negb (y mod 100 =? 0) || (y mod 400 =? 0)).

Definition DAYS_IN_MONTH : list Z :=
  [31; 28; 31; 30; 31; 30; 31; 31; 30; 31; 30; 31].

Definition DAYS_BEFORE_MONTH : list Z :=
  [0; 31; 59; 90; 120; 151; 181; 212; 243; 273; 304; 334].

Definition table (t : list Z) (m : Z) : Z := nth (Z.to_nat (m - 1)) t 0.

Definition days_before_year (y : Z) : Z :=
  let y := y - 1 in y * 365 + y / 4 - y / 100 + y / 400.

Definition days_in_month (y m : Z) : Z :=
  if (m =? 2) && is_leap y then 29 else table DAYS_IN_MONTH m.

Definition days_before_month (y m : Z) : Z :=
  table DAYS_BEFORE_MONTH m + (if (2 <? m) && is_leap y then 1 else 0).

(** [date.toordinal()]: 1 is 0001-01-01. *)
Definition ymd2ord (y m d : Z) : Z :=
  days_before_year y + days_before_month y m + d.

Definition DI400Y : Z := 146097.
Definition DI100Y : Z := 36524.
Definition DI4Y : Z := 1461.
Definition MAXORDINAL : Z := 3652059.

(** [date.fromordinal(n)] *)
Definition ord2ymd (n : Z) : Z * Z * Z :=
  let n := n - 1 in
  let n400 := n / DI400Y in let n := n mod DI400Y in
  let year := n400 * 400 + 1 in
  let n100 := n / DI100Y in let n := n mod DI100Y in
  let n4 := n / DI4Y in let n := n mod DI4Y in
  let n1 := n / 365 in let n := n mod 365 in
  let year := year + n100 * 100 + n4 * 4 + n1 in
  if (n1 =? 4) || (n100 =? 4) then (year - 1, 12, 31)
  else
    let leapyear := (n1 =? 3) && (negb (n4 =? 24) || (n100 =? 3)) in
    let month := Z.shiftr (n + 50) 5 in
    let preceding :=
      table DAYS_BEFORE_MONTH month + (if (2 <? month) && leapyear then 1 else 0) in
    if n <? preceding then
      let month := month - 1 in
      let preceding :=
        preceding
        - (table DAYS_IN_MONTH month + (if (month =? 2) && leapyear then 1 else 0)) in
      (year, month, n - preceding + 1)
    else (year, month, n - preceding + 1).

(** [t - timedelta(days=n)]: the time of day is kept; a [timedelta] of more
    than 999999999 days, or a date outside years 1..9999, is an
    [OverflowError]. *)
Definition sub_days (t : datetime) (n : Z) : result datetime :=
  if Z.abs n <=? 999999999 then
    let o := ymd2ord (year t) (month t) (day t) - n in
    if (1 <=? o) && (o <=? MAXORDINAL) then
      let '(y, m, d) := ord2ymd o in
      Return (mkDatetime y m d (hour t) (minute t) (second t))
    else Raise OverflowError
  else Raise OverflowError.

Definition digit (d : Z) : Ascii.ascii := Ascii.ascii_of_nat (Z.to_nat (48 + d mod 10)).

Definition digits2 (n : Z) : string :=
  String (digit (n / 10)) (String (digit n) "").

Definition digits4 (n : Z) : string :=
  String (digit (n / 1000)) (String (digit (n / 100)) (digits2 n)).

(** [%Y] of [strftime], which CPython leaves to the C library: the year in
    decimal without padding, so four digits from the year 1000 on and
    fewer before ([999], not [0999]). *)
Definition year_digits (n : Z) : string :=
  if 1000 <=? n then digits4 n
  else if 100 <=? n then String (digit (n / 100)) (digits2 n)
  else if 10 <=? n then digits2 n
  else String (digit n) "".

(** [t.strftime('%Y-%m-%d')] *)
Definition strftime_ymd (t : datetime) : string :=
  year_digits (year t) +:+ "-" +:+ digits2 (month t) +:+ "-" +:+ digits2 (day t).

(** [t.strftime('%Y%m%d_%H%M%S')] *)
Definition strftime_stamp (t : datetime) : string :=
  year_digits (year t) +:+ digits2 (month t) +:+ digits2 (day t) +:+ "_"
  +:+ digits2 (hour t) +:+ digits2 (minute t) +:+ digits2 (second t).

Definition digit_val (c : Ascii.ascii) : option Z :=
  let n := Z.of_nat (Ascii.nat_of_ascii c) in
  if (48 <=? n) && (n <=? 57) then Some (n - 48) else None.

Definition in_range (lo hi v : Z) : option Z :=
  if (lo <=? v) && (v <=? hi) then Some v else None.

(** A one- or two-character field of [strptime]: [%m] is
    [1[0-2]|0[1-9]|[1-9]], and [%d] is
    [3[01]|[12]\d|0[1-9]|[1-9]| [1-9]]. *)
Definition parse_field (space_pad : bool) (hi : Z) (s : string) : option Z :=
  match s with
  | String a "" => d ← digit_val a; in_range 1 9 d
  | String a (String b "") =>
      if space_pad && bool_decide (a = " "%char)
      then d ← digit_val b; in_range 1 9 d
      else da ← digit_val a; db ← digit_val b; in_range 1 hi (10 * da + db)
  | _ => None
  end.

(** [datetime.strptime(s, '%Y-%m-%d')]: four digits, a dash, a month, a
    dash, a day, and nothing more; then the date has to exist.  Anything
    else is a [ValueError]. *)
Definition strptime_ymd (s : string) : result datetime :=
  match s with
  | String y1 (String y2 (String y3 (String y4 (String "-"%char rest)))) =>
      match digit_val y1, digit_val y2, digit_val y3, digit_val y4,
            PyStr.cut "-" rest with
      | Some a, Some b, Some c, Some d, Some (ms, ds) =>
          let y := 1000 * a + 100 * b + 10 * c + d in
          match parse_field false 12 ms, parse_field true 31 ds with
          | Some m, Some dd =>
              if (1 <=? y) && (dd <=? days_in_month y m)
              then Return (mkDatetime y m dd 0 0 0)
              else Raise ValueError
          | _, _ => Raise ValueError
          end
      | _, _, _, _, _ => Raise ValueError
      end
  | _ => Raise ValueError
  end.

End PyDate.

(** Truth value of an optional integer: [None] and [0] are false. *)
Definition truthy_int (o : option Z) : bool :=
  match o with
  | Some n => negb (n =? 0)
  | None => false
  end.

(** One side of the range: the absolute date wins, then the relative
    offset, then no bound.  [suffix] is the time of day written after the
    date. *)
Definition date_bound (now : PyDate.datetime) (days_ago : option Z)
    (date : option string) (suffix : string) : result (option string) :=
  if PyStr.truthy date then
    t ← PyDate.strptime_ymd (default "" date);
    Return (Some (PyDate.strftime_ymd t +:+ suffix))
  else if truthy_int days_ago then
    t ← PyDate.sub_days now (default 0 days_ago);
    Return (Some (PyDate.strftime_ymd t +:+ suffix))
  else Return None.

Definition get_date_range_iso (now : PyDate.datetime)
    (days_ago_start days_ago_end : option Z)
    (start_date end_date : option string)
  : result (option string * option string) :=
  published_after ← date_bound now days_ago_start start_date "T00:00:00Z";
  published_before ← date_bound now days_ago_end end_date "T23:59:59Z";
  Return (published_after, published_before).

Open Scope list_scope.

(** ** The remote API

    A request either yields a response or raises [HttpError].  The body of
    an error is read only by the comment ranker, which looks for the reason
    code at [json.loads(body)['error']['errors'][0]['reason']]: the body is
    not JSON text; or a value on that path cannot be subscripted that way
    (the body is a list, [errors[0]] is a number, ...); or [errors] is an
    empty list; or one of the three keys is missing; or the reason code is
    there. *)

Inductive error_body : Type :=
| NotJson
| NotAnObject
| EmptyErrors
| NoReason
| Reason (reason : string).

Inductive reply (A : Type) : Type :=
| Ok (a : A)
| HttpError (e : error_body).
Arguments Ok {A} a.
Arguments HttpError {A} e.

(** What the platform serves for a paginated listing, in the order the
    pages are asked for: a response without [nextPageToken], a response
    with one together with what the platform serves for that token, or a
    request that fails. *)
Inductive feed (P : Type) : Type :=
| Last (page : P)
| Next (page : P) (nextPageToken : string) (rest : feed P)
| Failed (e : error_body).
Arguments Last {P} page.
Arguments Next {P} page nextPageToken rest.
Arguments Failed {P} e.

(** [l.sort(key=key, reverse=True)]: descending by key, elements with equal
    keys in their original order. *)
Fixpoint insert_desc {A : Type} (key : A → Z) (x : A) (l : list A) : list A :=
  match l with
  | [] => [x]
  | y :: l' => if key x <? key y then y :: insert_desc key x l' else x :: y :: l'
  end.

Definition sort_desc {A : Type} (key : A → Z) (l : list A) : list A :=
  foldr (insert_desc key) [] l.

(** [l[:n]], for a negative [n] too. *)
Definition slice_to {A : Type} (n : Z) (l : list A) : list A :=
  if 0 <=? n then take (Z.to_nat n) l
  else take (length l - Z.to_nat (- n)) l.

(** ** Video Search Aggregator: [search_videos_by_keyword] *)

(** An item of a [search().list] response. *)
Record search_item : Type := mkSearchItem {
  videoId : string;
  snippet_title : string;
  snippet_channelTitle : string;
  snippet_channelId : string;
  snippet_publishedAt : string;
  snippet_description : string;
  snippet_thumbnail : string
}.

(** The [statistics] of an item of a [videos().list] response; the counts
    are taken as the integers [int(...)] reads from them. *)
Record statistics : Type := mkStatistics {
  viewCount : option Z;
  likeCount : option Z;
  commentCount : option Z
}.

Record stats_item : Type := mkStatsItem {
  stats_id : string;
  stats_statistics : option statistics
}.

Module Video.
Record t : Type := mk {
  video_id : string;
  title : string;
  channel : string;
  channel_id : string;
  published_at : string;
  description : string;
  thumbnail : string;
  view_count : Z;
  like_count : Z;
  comment_count : Z
}.
End Video.

(** One round of the search loop: the search response's items, and the
    reply to the statistics request that follows when there are items. *)
Record search_page : Type := mkSearchPage {
  items : list search_item;
  stats_response : reply (list stats_item)
}.

Record search_params : Type := mkSearchParams {
  q : string;
  maxResults : Z;
  pageToken : option string;
  publishedAfter : option string;
  publishedBefore : option string
}.

(** [{video['id']: video for video in stats_response['items']}] *)
Definition stats_map (l : list stats_item) : gmap string stats_item :=
  foldl (λ m v, <[stats_id v := v]> m) ∅ l.

Definition count_of (stats : option stats_item)
    (field : statistics → option Z) : Z :=
  default 0 (s ← stats; st ← stats_statistics s; field st).

Definition video_info (m : gmap string stats_item) (item : search_item) : Video.t :=
  let stats := m !! videoId item in
  Video.mk (videoId item) (snippet_title item) (snippet_channelTitle item)
    (snippet_channelId item) (snippet_publishedAt item)
    (snippet_description item) (snippet_thumbnail item)
    (count_of stats viewCount) (count_of stats likeCount)
    (count_of stats commentCount).

(** The records one page adds to [videos]; the statistics request is made
    only when the page has items, and its failure leaves the loop before
    anything of the page is appended. *)
Definition page_videos (p : search_page) : reply (list Video.t) :=
  match items p with
  | [] => Ok []
  | _ :: _ =>
      match stats_response p with
      | Ok st => Ok (video_info (stats_map st) <$> items p)
      | HttpError e => HttpError e
      end
  end.

Definition keep_if_truthy (o : option string) : option string :=
  if PyStr.truthy o then o else None.

Section SearchAggregator.
Variable keyword : string.
Variable max_results : Z.
Variables published_after published_before : option string.

(** The [while] loop inside the [try]; [except HttpError] only prints, so
    a failed request ends the loop with [videos] as it stands.  The second
    component lists the search requests sent. *)
Fixpoint search_loop (videos : list Video.t) (next_page_token : option string)
    (f : feed search_page) : list Video.t * list search_params :=
  if Z.of_nat (length videos) <? max_results then
    let remaining := max_results - Z.of_nat (length videos) in
    let batch_size := Z.min 50 remaining in
    let request :=
      mkSearchParams keyword batch_size next_page_token
        (keep_if_truthy published_after) (keep_if_truthy published_before) in
    match f with
    | Failed _ => (videos, [request])
    | Last p =>
        match page_videos p with
        | Ok vs => (videos ++ vs, [request])
        | HttpError _ => (videos, [request])
        end
    | Next p token rest =>
        match page_videos p with
        | Ok vs =>
            if PyStr.truthy (Some token) then
              let '(out, sent) := search_loop (videos ++ vs) (Some token) rest in
              (out, request :: sent)
            else (videos ++ vs, [request])
        | HttpError _ => (videos, [request])
        end
    end
  else (videos, []).

Definition search_videos_by_keyword (f : feed search_page) : list Video.t :=
  sort_desc Video.view_count (search_loop [] None f).1.

Definition search_requests (f : feed search_page) : list search_params :=
  (search_loop [] None f).2.

End SearchAggregator.

(** ** Comment Ranker: [get_top_comments_by_likes] *)

(** An item of a [commentThreads().list] response: the top-level comment
    of a thread and the thread's reply count. *)
Record thread_item : Type := mkThreadItem {
  topLevelComment_id : string;
  authorDisplayName : string;
  authorChannelId : option string;
  textDisplay : string;
  thread_likeCount : Z;
  thread_publishedAt : string;
  thread_updatedAt : string;
  totalReplyCount : Z
}.

Module Comment.
Record t : Type := mk {
  video_id : string;
  comment_id : string;
  author : string;
  author_channel_id : string;
  text : string;
  like_count : Z;
  published_at : string;
  updated_at : string;
  reply_count : Z
}.
End Comment.

Record thread_params : Type := mkThreadParams {
  threads_videoId : string;
  threads_maxResults : Z;
  threads_pageToken : option string
}.

(** The reason code the [except] clause reads from the body of an
    [HttpError]; a body that is not of that shape raises from the handler:
    [json.JSONDecodeError] is a [ValueError]. *)
Definition error_reason (e : error_body) : result string :=
  match e with
  | NotJson => Raise ValueError
  | NotAnObject => Raise TypeError
  | EmptyErrors => Raise IndexError
  | NoReason => Raise KeyError
  | Reason r => Return r
  end.

Section Ranker.
Variable video_id : string.
Variable max_comments : Z.

Definition fetch_limit : Z := Z.min (max_comments * 5) 100.

Definition comment_data (item : thread_item) : Comment.t :=
  Comment.mk video_id (topLevelComment_id item) (authorDisplayName item)
    (default "N/A" (authorChannelId item)) (textDisplay item)
    (thread_likeCount item) (thread_publishedAt item)
    (thread_updatedAt item) (totalReplyCount item).

(** The [while] loop inside the [try]: the comments gathered, the error
    that ended the loop if one did, and the requests sent. *)
Fixpoint comments_loop (comments : list Comment.t) (total_fetched : Z)
    (next_page_token : option string) (f : feed (list thread_item))
  : list Comment.t * option error_body * list thread_params :=
  if total_fetched <? fetch_limit then
    let remaining := fetch_limit - total_fetched in
    let batch_size := Z.min 100 remaining in
    let request := mkThreadParams video_id batch_size next_page_token in
    match f with
    | Failed e => (comments, Some e, [request])
    | Last page => (comments ++ (comment_data <$> page), None, [request])
    | Next page token rest =>
        let comments' := comments ++ (comment_data <$> page) in
        let total_fetched' := total_fetched + Z.of_nat (length page) in
        if PyStr.truthy (Some token) then
          let '(out, err, sent) :=
            comments_loop comments' total_fetched' (Some token) rest in
          (out, err, request :: sent)
        else (comments', None, [request])
    end
  else (comments, None, []).

Definition get_top_comments_by_likes (f : feed (list thread_item))
  : result (list Comment.t) :=
  let '(comments, err, _) := comments_loop [] 0 None f in
  _ ← from_option error_reason (Return "") err;
  Return (slice_to max_comments (sort_desc Comment.like_count comments)).

Definition comment_requests (f : feed (list thread_item)) : list thread_params :=
  (comments_loop [] 0 None f).2.

End Ranker.

(** ** Extraction Orchestrator: [extract_top_comments_from_videos] *)

Record extraction_info : Type := mkExtractionInfo {
  total_videos_processed : Z;
  videos_with_comments : Z;
  extraction_date : string;
  top_comments_per_video : Z
}.

Record video_result : Type := mkVideoResult {
  video_info_of : Video.t;
  top_comments : list Comment.t;
  comments_extracted : Z
}.

Record results : Type := mkResults {
  info : extraction_info;
  videos : list video_result
}.

(** [t.strftime('%Y-%m-%d %H:%M:%S')] *)
Definition strftime_seconds (t : PyDate.datetime) : string :=
  PyDate.strftime_ymd t +:+ " " +:+ PyDate.digits2 (PyDate.hour t) +:+ ":"
  +:+ PyDate.digits2 (PyDate.minute t) +:+ ":" +:+ PyDate.digits2 (PyDate.second t).

Definition bool_to_Z (b : bool) : Z := if b then 1 else 0.

(** The [for] loop over [enumerate(videos)]: [feeds i] is what the
    platform serves for the comment threads of the [i]-th video. *)
Fixpoint extract_loop (top_comments_count : Z)
    (feeds : nat → feed (list thread_item)) (i : nat)
    (todo : list Video.t) (acc : results) : result results :=
  match todo with
  | [] => Return acc
  | video :: todo' =>
      top ← get_top_comments_by_likes (Video.video_id video)
               top_comments_count (feeds i);
      let video_result := mkVideoResult video top (Z.of_nat (length top)) in
      let i0 := info acc in
      let info' :=
        mkExtractionInfo (total_videos_processed i0 + 1)
          (videos_with_comments i0 + bool_to_Z (bool_decide (top ≠ [])))
          (extraction_date i0) (top_comments_per_video i0) in
      extract_loop top_comments_count feeds (S i) todo'
        (mkResults info' (videos acc ++ [video_result]))
  end.

Definition extract_top_comments_from_videos (now : PyDate.datetime)
    (feeds : nat → feed (list thread_item)) (videos : list Video.t)
    (top_comments_count : Z) : result results :=
  extract_loop top_comments_count feeds 0 videos
    (mkResults (mkExtractionInfo 0 0 (strftime_seconds now) top_comments_count) []).

(** ** Report Exporter: [save_to_excel] *)

#[global] Instance video_eq_dec : EqDecision Video.t.
Proof. solve_decision. Defined.
#[global] Instance comment_eq_dec : EqDecision Comment.t.
Proof. solve_decision. Defined.
#[global] Instance video_result_eq_dec : EqDecision video_result.
Proof. solve_decision. Defined.

(** [l.index(x)]: the position of the first element equal to [x]. *)
Fixpoint list_index {A : Type} `{EqDecision A} (x : A) (l : list A) : result nat :=
  match l with
  | [] => Raise ValueError
  | y :: l' =>
      if decide (y = x) then Return O
      else i ← list_index x l'; Return (S i)
  end.

Module Detail.
Record t : Type := mk {
  Video_Rank : Z;
  Video_ID : string;
  Video_Title : string;
  Channel_Name : string;
  Video_Views : Z;
  Video_Likes : Z;
  Video_Published : string;
  Comment_Rank : Z;
  Comment_ID : string;
  Comment_Author : string;
  Comment_Text : string;
  Comment_Likes : Z;
  Comment_Published : string;
  Reply_Count : Z
}.
End Detail.

Module Overview.
Record t : Type := mk {
  Rank : Z;
  Video_ID : string;
  Title : string;
  Channel : string;
  Views : Z;
  Likes : Z;
  Comments_Count : Z;
  Published : string;
  Comments_Extracted : Z
}.
End Overview.

Inductive cell : Type :=
| IntCell (n : Z)
| StrCell (s : string).

(** The workbook handed to the spreadsheet writer: three sheets. *)
Record workbook : Type := mkWorkbook {
  Top_Comments : list Detail.t;
  Summary : list (string * cell);
  Video_Overview : list Overview.t
}.

(** What the libraries make of the block [with pd.ExcelWriter(filename,
    engine='openpyxl') as writer: ...]: the three sheets are saved under
    the path, or an exception leaves the block (the directory of the path
    does not exist, the file cannot be written, a cell holds a character
    the format refuses, ...) and with it the function. *)
Inductive write_outcome : Type :=
| Saved
| WriteError (e : exn).

Section Exporter.
Variable res : results.

(** [excel_writer fs path book]: the outcome of writing [book] under
    [path] on the disk [fs]. *)
Variable excel_writer : gmap string workbook → string → workbook → write_outcome.

(** [results['videos'].index(video) + 1] *)
Definition rank_of (video : video_result) : result Z :=
  i ← list_index video (videos res); Return (Z.of_nat i + 1).

(** The inner loop, [for i, comment in enumerate(video['top_comments'], 1)],
    from position [i] on. *)
Fixpoint comment_rows (video : video_result) (i : Z) (comments : list Comment.t)
  : result (list Detail.t) :=
  match comments with
  | [] => Return []
  | comment :: comments' =>
      rank ← rank_of video;
      let v := video_info_of video in
      let row :=
        Detail.mk rank (Video.video_id v) (Video.title v) (Video.channel v)
          (Video.view_count v) (Video.like_count v) (Video.published_at v)
          i (Comment.comment_id comment) (Comment.author comment)
          (Comment.text comment) (Comment.like_count comment)
          (Comment.published_at comment) (Comment.reply_count comment) in
      rows ← comment_rows video (i + 1) comments';
      Return (row :: rows)
  end.

(** The outer loop, [for video in results['videos']], over what is left
    of the list. *)
Fixpoint detail_rows (todo : list video_result) : result (list Detail.t) :=
  match todo with
  | [] => Return []
  | video :: todo' =>
      here ← comment_rows video 1 (top_comments video);
      rows ← detail_rows todo';
      Return (here ++ rows)
  end.

Fixpoint overview_rows (todo : list video_result) : result (list Overview.t) :=
  match todo with
  | [] => Return []
  | video :: todo' =>
      rank ← rank_of video;
      let v := video_info_of video in
      let row :=
        Overview.mk rank (Video.video_id v) (Video.title v) (Video.channel v)
          (Video.view_count v) (Video.like_count v) (Video.comment_count v)
          (Video.published_at v) (comments_extracted video) in
      rows ← overview_rows todo';
      Return (row :: rows)
  end.

Definition summary_sheet (excel_data : list Detail.t) : list (string * cell) :=
  [ ("Total Videos Processed", IntCell (total_videos_processed (info res)));
    ("Videos with Comments", IntCell (videos_with_comments (info res)));
    ("Total Comments Extracted", IntCell (Z.of_nat (length excel_data)));
    ("Extraction Date", StrCell (extraction_date (info res)));
    ("Comments per Video", IntCell (top_comments_per_video (info res))) ].

(** The name the workbook is written under. *)
Definition excel_filename (now : PyDate.datetime) (filename : option string) : string :=
  if negb (PyStr.truthy filename) then
    "youtube_top_comments_" +:+ PyDate.strftime_stamp now +:+ ".xlsx"
  else
    let name := default "" filename in
    if negb (PyStr.endswith ".xlsx" name) then name +:+ ".xlsx" else name.

(** [fs] maps the paths of the workbooks on disk to their content; the
    function returns the path written, or [None], and the disk after it.
    When the writer raises, so does the function, and what is then left
    under the path is not described. *)
Definition save_to_excel (now : PyDate.datetime) (filename : option string)
    (fs : gmap string workbook) : result (option string * gmap string workbook) :=
  let filename := excel_filename now filename in
  excel_data ← detail_rows (videos res);
  match excel_data with
  | _ :: _ =>
      video_overview ← overview_rows (videos res);
      let book := mkWorkbook excel_data (summary_sheet excel_data) video_overview in
      match excel_writer fs filename book with
      | Saved => Return (Some filename, <[filename := book]> fs)
      | WriteError e => Raise e
      end
  | [] => Return (None, fs)
  end.

End Exporter.

(** ** Vocabulary of the statements *)

(** Descending by key: every element's key is at least the key of every
    element after it. *)
Definition sorted_desc {A : Type} (key : A → Z) (l : list A) : Prop :=
  StronglySorted (λ a b, key b ≤ key a) l.

(** The feed that serves the pages of [pre], each with its token, and
    then goes on as [tl]. *)
Fixpoint chain {P : Type} (pre : list (P * string)) (tl : feed P) : feed P :=
  match pre with
  | [] => tl
  | (page, token) :: pre' => Next page token (chain pre' tl)
  end.

(** The pages of a feed, in the order they are served. *)
Fixpoint responses {P : Type} (f : feed P) : list P :=
  match f with
  | Last page => [page]
  | Next page _ rest => page :: responses rest
  | Failed _ => []
  end.

(** The records a search page contributes: none when its statistics
    request fails. *)
Definition page_records (p : search_page) : list Video.t :=
  match page_videos p with
  | Ok vs => vs
  | HttpError _ => []
  end.

Definition records (ps : list search_page) : list Video.t :=
  concat (page_records <$> ps).
Arguments records : simpl never.

(** A page whose requests both succeed and whose token lets the loop go on. *)
Definition good_page (pt : search_page * string) : Prop :=
  PyStr.truthy (Some pt.2) = true ∧ ∃ vs, page_videos pt.1 = Ok vs.


(** No page of the feed holds more than [cap] items. *)
Definition pages_at_most (cap : nat) (f : feed search_page) : Prop :=
  Forall (λ p, (length (items p) ≤ cap)%nat) (responses f).

(** Every page that is fetched holds at most the [maxResults] items its
    request asked for. *)
Definition pages_honour_requests (keyword : string) (max_results : Z)
    (published_after published_before : option string)
    (f : feed search_page) : Prop :=
  ∀ i req p,
    search_requests keyword max_results published_after published_before f !! i
      = Some req →
    responses f !! i = Some p →
    Z.of_nat (length (items p)) ≤ maxResults req.

(** Sample data. *)
Definition sample_item (id : string) : search_item :=
  mkSearchItem id "title" "channel" "UC0" "2024-01-01T00:00:00Z" "" "".

Definition sample_stats (id : string) (views : Z) : stats_item :=
  mkStatsItem id (Some (mkStatistics (Some views) (Some 1) None)).

Definition full_page : search_page :=
  mkSearchPage (replicate 50 (sample_item "aaaaaaaaaaa")) (Ok []).

Definition sample_page : search_page :=
  mkSearchPage [sample_item "aaaaaaaaaaa"; sample_item "bbbbbbbbbbb"]
    (Ok [sample_stats "bbbbbbbbbbb" 700; sample_stats "aaaaaaaaaaa" 30]).

(** The comment records of the threads of some pages. *)
Definition gathered (video_id : string) (pages : list (list thread_item))
  : list Comment.t :=
  comment_data video_id <$> concat pages.
Arguments gathered : simpl never.

(** The token of every page lets the loop go on. *)
Definition tokens_truthy {P : Type} (pre : list (P * string)) : Prop :=
  Forall (λ pt, PyStr.truthy (Some pt.2) = true) pre.

(** The error that ended the comment loop, if one did. *)
Definition loop_error (video_id : string) (max_comments : Z)
    (f : feed (list thread_item)) : option error_body :=
  (comments_loop video_id max_comments [] 0 None f).1.2.

Definition sample_thread (id : string) (likes : Z) : thread_item :=
  mkThreadItem id "author" None "text" likes
    "2024-01-01T00:00:00Z" "2024-01-01T00:00:00Z" 0.

(** The reading of the specification under which a failure during the
    pagination of the comment threads always gives the empty sequence. *)
Definition ranker_empty_on_failure : Prop :=
  ∀ video_id max_comments f e,
    loop_error video_id max_comments f = Some e →
    get_top_comments_by_likes video_id max_comments f = Return [].

(** The reading of the specification under which a relative offset gives
    a start-of-day timestamp on either side of the range. *)
Definition relative_offset_floors_both_sides : Prop :=
  ∀ now n t,
    0 < n → PyDate.sub_days now n = Return t →
    get_date_range_iso now (Some n) None None None
    = Return (Some (PyDate.strftime_ymd t +:+ "T00:00:00Z"), None)
    ∧ get_date_range_iso now None (Some n) None None
      = Return (None, Some (PyDate.strftime_ymd t +:+ "T00:00:00Z")).

Definition sample_now : PyDate.datetime := PyDate.mkDatetime 2024 3 10 15 4 5.

(** A disk on which every write succeeds, and one on which none does. *)
Definition writer_saves : gmap string workbook → string → workbook → write_outcome :=
  λ _ _ _, Saved.

Definition writer_refuses : gmap string workbook → string → workbook → write_outcome :=
  λ _ _ _, WriteError OSError.

(** The number of comment rows of a report. *)
Definition total_comments (res : results) : nat :=
  sum_list ((λ v, length (top_comments v)) <$> videos res).

Definition sample_video : Video.t :=
  Video.mk "aaaaaaaaaaa" "title" "channel" "UC0" "2024-01-01T00:00:00Z" "" "" 1000 10 1.

Definition sample_result : video_result :=
  mkVideoResult sample_video [comment_data "aaaaaaaaaaa" (sample_thread "c1" 3)] 1.

(** A report in which the same video was found twice, with the same
    comments both times. *)
Definition twice_listed : results :=
  mkResults (mkExtractionInfo 2 2 "2024-03-10 15:04:05" 1)
            [sample_result; sample_result].

(** The text of [s] before the first occurrence of [sep], all of [s]
    when there is none: the first piece of [s.split(sep)]. *)
Definition upto (sep s : string) : string :=
  match PyStr.cut sep s with
  | Some (b, _) => b
  | None => s
  end.

(** [id] is the text of [url] that follows the first occurrence of
    [marker] and runs to the next occurrence of [marker] or of [stop], or
    to the end of [url]. *)
Definition segment_after (marker stop url id : string) : Prop :=
  ∃ pre rest,
    url = pre +:+ marker +:+ id +:+ rest
    ∧ (∀ pre' after', url = pre' +:+ marker +:+ after' →
         (String.length pre ≤ String.length pre')%nat)
    ∧ PyStr.contains marker id = false
    ∧ PyStr.contains stop id = false
    ∧ (rest = "" ∨ String.prefix marker rest = true ∨ String.prefix stop rest = true).

(** The reading of the specification under which an identifier that is
    returned always has 11 characters. *)
Definition resolver_gives_11_characters : Prop :=
  ∀ url id, extract_video_id url = Return (Some id) → String.length id = 11%nat.

(** The scenario of the specification: keyword "demo", no window, two
    videos with 1000 and 500 views, three comments asked for; the first
    video has four comments, the second only two. *)
Definition demo_search : feed search_page :=
  Last (mkSearchPage
          [sample_item "bbbbbbbbbbb"; sample_item "aaaaaaaaaaa"]
          (Ok [sample_stats "aaaaaaaaaaa" 1000; sample_stats "bbbbbbbbbbb" 500])).

Definition demo_threads (i : nat) : feed (list thread_item) :=
  match i with
  | O => Last [sample_thread "c1" 3; sample_thread "c2" 9;
               sample_thread "c3" 0; sample_thread "c4" 5]
  | _ => Last [sample_thread "d1" 1; sample_thread "d2" 2]
  end.

(** The candidates the comment loop has gathered when it ends. *)
Definition candidates (video_id : string) (max_comments : Z)
    (f : feed (list thread_item)) : list Comment.t :=
  (comments_loop video_id max_comments [] 0 None f).1.1.

(** Every page of threads that is fetched holds at most the [maxResults]
    threads its request asked for. *)
Definition thread_pages_honour_requests (video_id : string) (max_comments : Z)
    (f : feed (list thread_item)) : Prop :=
  ∀ i req p,
    comment_requests video_id max_comments f !! i = Some req →
    responses f !! i = Some p →
    Z.of_nat (length p) ≤ threads_maxResults req.

Definition sample_threads : feed (list thread_item) :=
  Next [sample_thread "c1" 3; sample_thread "c2" 9] "CAUQAA"
    (Last [sample_thread "c3" 5; sample_thread "c4" 7]).

(** The ranker call for a video ends without an error or with one that
    carries a reason code. *)
Definition error_has_reason (video_id : string) (max_comments : Z)
    (f : feed (list thread_item)) : Prop :=
  ∀ e, loop_error video_id max_comments f = Some e → ∃ reason, e = Reason reason.

(** A video whose comment threads fail on the second request with a body
    that is not JSON. *)
Definition broken_threads (i : nat) : feed (list thread_item) :=
  match i with
  | O => Last [sample_thread "c1" 3]
  | _ => Next [sample_thread "d1" 1] "CAUQAA" (Failed NotJson)
  end.


(** The token in hand after the pages of [pre]. *)
Definition last_token {P : Type} (tok : option string) (pre : list (P * string))
  : option string :=
  from_option (λ pt, Some pt.2) tok (last pre).

(** A feed that goes on for ever so long after its first page. *)
Definition long_tail : feed search_page :=
  Next sample_page "CAUQAB" (Next full_page "CAUQAC" (Failed NoReason)).

(** The count the statistics items [st] give for a video: that of the last
    item with the video's identifier, 0 when there is none or when the
    item lacks the field. *)
Definition stat_of (st : list stats_item) (id : string)
    (field : statistics → option Z) : Z :=
  default 0 (s ← last (filter (λ v, stats_id v = id) st);
             stats ← stats_statistics s; field stats).

(** An existing date of the years 1 to 9999. *)
Definition valid_date (t : PyDate.datetime) : Prop :=
  1 ≤ PyDate.year t ≤ 9999 ∧ 1 ≤ PyDate.month t ≤ 12
  ∧ 1 ≤ PyDate.day t ≤ PyDate.days_in_month (PyDate.year t) (PyDate.month t).

(** The start of the day of [t]. *)
Definition midnight (t : PyDate.datetime) : PyDate.datetime :=
  PyDate.mkDatetime (PyDate.year t) (PyDate.month t) (PyDate.day t) 0 0 0.

(** The comment ranks of a detail sheet: 1, 2, ... within each video. *)
Definition comment_ranks (vs : list video_result) : list Z :=
  concat ((λ v, (λ k, 1 + Z.of_nat k) <$> seq 0 (length (top_comments v))) <$> vs).

(** A column of the detail sheet that repeats a value of the video for
    each of its comments. *)
Definition per_comment {A : Type} (g : video_result → A) (vs : list video_result)
  : list A :=
  concat ((λ v, replicate (length (top_comments v)) (g v)) <$> vs).

(** The columns of a detail row that come from the comment, and the
    fields of a comment they show. *)
Definition detail_comment_columns (row : Detail.t)
  : string * string * string * Z * string * Z :=
  (Detail.Comment_ID row, Detail.Comment_Author row, Detail.Comment_Text row,
   Detail.Comment_Likes row, Detail.Comment_Published row, Detail.Reply_Count row).

Definition comment_columns (c : Comment.t)
  : string * string * string * Z * string * Z :=
  (Comment.comment_id c, Comment.author c, Comment.text c,
   Comment.like_count c, Comment.published_at c, Comment.reply_count c).

(** The columns of a detail row that come from the video, and the fields
    of an entry's video they show. *)
Definition detail_video_columns (row : Detail.t)
  : string * string * string * Z * Z * string :=
  (Detail.Video_ID row, Detail.Video_Title row, Detail.Channel_Name row,
   Detail.Video_Views row, Detail.Video_Likes row, Detail.Video_Published row).

Definition video_columns (v : video_result)
  : string * string * string * Z * Z * string :=
  let i := video_info_of v in
  (Video.video_id i, Video.title i, Video.channel i,
   Video.view_count i, Video.like_count i, Video.published_at i).

(** The columns of an overview row other than the rank, and what an entry
    of the report gives for them. *)
Definition overview_columns (row : Overview.t)
  : string * string * string * Z * Z * Z * string * Z :=
  (Overview.Video_ID row, Overview.Title row, Overview.Channel row,
   Overview.Views row, Overview.Likes row, Overview.Comments_Count row,
   Overview.Published row, Overview.Comments_Extracted row).

Definition overview_of (v : video_result)
  : string * string * string * Z * Z * Z * string * Z :=
  let i := video_info_of v in
  (Video.video_id i, Video.title i, Video.channel i,
   Video.view_count i, Video.like_count i, Video.comment_count i,
   Video.published_at i, comments_extracted v).

(** A report of two videos, every field with a value of its own. *)
Definition two_videos : results :=
  mkResults (mkExtractionInfo 2 2 "2024-03-10 15:04:05" 2)
    [ mkVideoResult
        (Video.mk "aaaaaaaaaaa" "one" "ch1" "UC1" "2024-01-01T00:00:00Z" "d1" "t1"
           1000 10 7)
        [ Comment.mk "aaaaaaaaaaa" "c9" "ann" "UCa" "first" 9
            "2024-02-01T00:00:00Z" "2024-02-11T00:00:00Z" 4;
          Comment.mk "aaaaaaaaaaa" "c3" "bob" "UCb" "second" 3
            "2024-02-02T00:00:00Z" "2024-02-12T00:00:00Z" 0 ]
        2;
      mkVideoResult
        (Video.mk "bbbbbbbbbbb" "two" "ch2" "UC2" "2024-01-02T00:00:00Z" "d2" "t2"
           500 20 8)
        [ Comment.mk "bbbbbbbbbbb" "d5" "cyd" "UCc" "third" 5
            "2024-02-03T00:00:00Z" "2024-02-13T00:00:00Z" 1 ]
        1 ].

(** A search page whose statistics list a video twice. *)
Definition described_page : search_page :=
  mkSearchPage
    [ mkSearchItem "aaaaaaaaaaa" "one" "ch1" "UC1" "2024-01-01T00:00:00Z" "d1" "t1";
      mkSearchItem "bbbbbbbbbbb" "two" "ch2" "UC2" "2024-01-02T00:00:00Z" "d2" "t2" ]
    (Ok [ mkStatsItem "aaaaaaaaaaa" (Some (mkStatistics (Some 30) (Some 3) (Some 1)));
          mkStatsItem "aaaaaaaaaaa" (Some (mkStatistics (Some 70) None (Some 2))) ]).

(** ** The command-line driver: [main]

    The answers are taken as read from the prompts: strings after
    [strip()], the two counts after [int(... or "10")]; a count that does
    not parse raises before anything modelled here happens.  The clock is
    read at up to four places. *)

Record answers : Type := mkAnswers {
  keyword_answer : string;
  date_choice : string;
  start_date_answer : string;
  end_date_answer : string;
  max_videos : Z;
  top_comments_count_answer : Z;
  custom_filename : string
}.

Record clock : Type := mkClock {
  now_today : PyDate.datetime;
  now_range : PyDate.datetime;
  now_extraction : PyDate.datetime;
  now_export : PyDate.datetime
}.

(** [published_after, _ = extractor.get_date_range_iso(days_ago_start=n)] *)
Definition preset_window (c : clock) (n : Z) : result (option string * option string) :=
  r ← get_date_range_iso (now_range c) (Some n) None None None;
  Return (r.1, None).

(** The [if]/[elif] chain over [date_choice]. *)
Definition chosen_window (c : clock) (a : answers)
  : result (option string * option string) :=
  let choice := date_choice a in
  if bool_decide (choice = "1") then preset_window c 7
  else if bool_decide (choice = "2") then preset_window c 30
  else if bool_decide (choice = "3") then preset_window c 90
  else if bool_decide (choice = "4") then preset_window c 180
  else if bool_decide (choice = "5") then preset_window c 365
  else if bool_decide (choice = "6") then
    let end_date :=
      if negb (PyStr.truthy (Some (end_date_answer a)))
      then PyDate.strftime_ymd (now_today c)
      else end_date_answer a in
    get_date_range_iso (now_range c) None None
      (Some (start_date_answer a)) (Some end_date)
  else Return (None, None).

(** [main()]: the path of the workbook written, if one is, and the disk
    after the run. *)
Definition main (a : answers) (c : clock) (search_feed : feed search_page)
    (comment_feeds : nat → feed (list thread_item))
    (excel_writer : gmap string workbook → string → workbook → write_outcome)
    (fs : gmap string workbook)
  : result (option string * gmap string workbook) :=
  if negb (PyStr.truthy (Some (keyword_answer a))) then Return (None, fs)
  else
    window ← chosen_window c a;
    let found :=
      search_videos_by_keyword (keyword_answer a) (max_videos a)
        window.1 window.2 search_feed in
    match found with
    | [] => Return (None, fs)
    | _ :: _ =>
        res ← extract_top_comments_from_videos (now_extraction c) comment_feeds
                 found (top_comments_count_answer a);
        let total_comments :=
          sum_list ((λ v, length (top_comments v)) <$> videos res) in
        if (0 <? total_comments)%nat then
          save_to_excel res excel_writer (now_export c) (Some (custom_filename a)) fs
        else Return (None, fs)
    end.

Definition sample_clock : clock :=
  mkClock sample_now sample_now sample_now sample_now.

Definition sample_answers : answers :=
  mkAnswers "demo" "6" "2024-01-05" "" 2 3 "".

(** The preset choices of the date menu and their spans in days. *)
Definition presets : list (string * Z) :=
  [("1", 7); ("2", 30); ("3", 90); ("4", 180); ("5", 365)].

(** [date.toordinal()] of the date of [t]. *)
Definition toordinal (t : PyDate.datetime) : Z :=
  PyDate.ymd2ord (PyDate.year t) (PyDate.month t) (PyDate.day t).

(** The month and day [ord2ymd] finds for the day [n] (from 0) of a year. *)
Definition month_day (leap : bool) (n : Z) : Z * Z :=
  let month := Z.shiftr (n + 50) 5 in
  let preceding :=
    PyDate.table PyDate.DAYS_BEFORE_MONTH month
    + (if (2 <? month) && leap then 1 else 0) in
  if n <? preceding then
    let month := month - 1 in
    let preceding :=
      preceding
      - (PyDate.table PyDate.DAYS_IN_MONTH month
         + (if (month =? 2) && leap then 1 else 0)) in
    (month, n - preceding + 1)
  else (month, n - preceding + 1).

(** What is checked for every day of a year. *)
Definition month_day_checks (leap : bool) (n : Z) : bool :=
  let '(m, d) := month_day leap n in
  (1 <=? m) && (m <=? 12) && (1 <=? d)
  && (d <=? (if (m =? 2) && leap then 29 else PyDate.table PyDate.DAYS_IN_MONTH m))
  && (PyDate.table PyDate.DAYS_BEFORE_MONTH m
      + (if (2 <? m) && leap then 1 else 0) + d =? n + 1).

Fixpoint all_from (count : nat) (n : Z) (P : Z → bool) : bool :=
  match count with
  | O => true
  | S count' => if P n then all_from count' (n + 1) P else false
  end.

(** [ord2ymd] on the quotients and remainders it computes. *)
Definition date_of_parts (q n100 n4 n1 r3 : Z) : Z * Z * Z :=
  let year := q * 400 + 1 + n100 * 100 + n4 * 4 + n1 in
  if (n1 =? 4) || (n100 =? 4) then (year - 1, 12, 31)
  else
    let md := month_day ((n1 =? 3) && (negb (n4 =? 24) || (n100 =? 3))) r3 in
    (year, md.1, md.2).

(** * Properties *)

(** ** Sample runs *)

Example extract_watch_url :
  extract_video_id "https://www.youtube.com/watch?v=dQw4w9WgXcQ&t=3"
  = Return (Some "dQw4w9WgXcQ").
Proof. reflexivity. Qed.

Example extract_short_link :
  extract_video_id "https://youtu.be/dQw4w9WgXcQ?t=3" = Return (Some "dQw4w9WgXcQ").
Proof. reflexivity. Qed.

Example extract_bare_id : extract_video_id "dQw4w9WgXcQ" = Return (Some "dQw4w9WgXcQ").
Proof. reflexivity. Qed.

Example extract_no_match : extract_video_id "not a video id" = Return None.
Proof. reflexivity. Qed.

Example extract_short_link_of_11 : extract_video_id "youtu.be/ab" = Return (Some "ab").
Proof. reflexivity. Qed.

Example split_like_python :
  PyStr.split "ab" "xxabyyababzz" = ["xx"; "yy"; ""; "zz"].
Proof. reflexivity. Qed.

Example date_range_relative :
  get_date_range_iso sample_now (Some 10) (Some 3) None None
  = Return (Some "2024-02-29T00:00:00Z", Some "2024-03-07T23:59:59Z").
Proof. reflexivity. Qed.

Example date_range_absolute_wins :
  get_date_range_iso sample_now (Some 10) (Some 3) (Some "2023-12-1") (Some "2024-02-29")
  = Return (Some "2023-12-01T00:00:00Z", Some "2024-02-29T23:59:59Z").
Proof. reflexivity. Qed.

Example date_range_invalid_date :
  get_date_range_iso sample_now None None (Some "2023-02-29") None = Raise ValueError.
Proof. reflexivity. Qed.

Example date_range_overflow :
  get_date_range_iso sample_now (Some 1000000) None None None = Raise OverflowError.
Proof. reflexivity. Qed.

Example ordinal_round_trip :
  PyDate.ymd2ord 2024 3 10 = 738955 ∧ PyDate.ord2ymd 738955 = (2024, 3, 10)
  ∧ PyDate.ord2ymd 1 = (1, 1, 1) ∧ PyDate.ord2ymd PyDate.MAXORDINAL = (9999, 12, 31).
Proof. repeat split. Qed.

Example slice_negative : slice_to (-1) [1; 2; 3] = [1; 2] ∧ slice_to (-5) [1; 2; 3] = [].
Proof. split; reflexivity. Qed.

Example sort_is_stable :
  sort_desc snd [("a", 1); ("b", 3); ("c", 1); ("d", 3)]
  = [("b", 3); ("d", 3); ("a", 1); ("c", 1)].
Proof. reflexivity. Qed.

(** The end-to-end scenario: five detail rows, two overview rows, and a
    summary with two videos processed, two of them with comments. *)
Example demo_end_to_end :
  let found := search_videos_by_keyword "demo" 2 None None demo_search in
  Video.view_count <$> found = [1000; 500]
  ∧ ∃ res book,
      extract_top_comments_from_videos sample_now demo_threads found 3 = Return res
      ∧ save_to_excel res writer_saves sample_now None ∅
        = Return (Some "youtube_top_comments_20240310_150405.xlsx",
                  {["youtube_top_comments_20240310_150405.xlsx" := book]})
      ∧ length (Top_Comments book) = 5%nat
      ∧ length (Video_Overview book) = 2%nat
      ∧ Detail.Comment_Likes <$> Top_Comments book = [9; 5; 3; 2; 1]
      ∧ take 3 (Summary book)
        = [("Total Videos Processed", IntCell 2); ("Videos with Comments", IntCell 2);
           ("Total Comments Extracted", IntCell 5)].
Proof.
  split; [reflexivity|]. do 2 eexists.
  split; [reflexivity|]. split; [reflexivity|]. repeat split.
Qed.


(** ** Sorting *)

Section Sorting.
Context {A : Type} (key : A → Z).

Lemma insert_desc_perm (x : A) (l : list A) : insert_desc key x l ≡ₚ x :: l.
Proof.
  induction l as [|y l IH]; simpl; [done|].
  destruct (key x <? key y); [|done].
  rewrite IH. apply Permutation_swap.
Qed.

Lemma sort_desc_perm (l : list A) : sort_desc key l ≡ₚ l.
Proof.
  induction l as [|x l IH]; simpl; [done|].
  unfold sort_desc in *. simpl. by rewrite insert_desc_perm, IH.
Qed.

Lemma sort_desc_length (l : list A) : length (sort_desc key l) = length l.
Proof. by rewrite sort_desc_perm. Qed.

Lemma insert_desc_sorted (x : A) (l : list A) :
  sorted_desc key l → sorted_desc key (insert_desc key x l).
Proof.
  unfold sorted_desc. induction 1 as [|y l Hl IH Hy]; simpl.
  - repeat constructor.
  - destruct (Z.ltb_spec (key x) (key y)) as [Hlt|Hge].
    + constructor; [done|].
      rewrite insert_desc_perm. constructor; [lia|done].
    + constructor; [by constructor|].
      constructor; [done|].
      eapply Forall_impl; [exact Hy|]. simpl. intros; lia.
Qed.

Lemma sort_desc_sorted (l : list A) : sorted_desc key (sort_desc key l).
Proof.
  induction l as [|x l IH]; [constructor|].
  by apply insert_desc_sorted.
Qed.

Lemma sorted_desc_take (n : nat) (l : list A) :
  sorted_desc key l → sorted_desc key (take n l).
Proof.
  unfold sorted_desc. intros Hl. revert n.
  induction Hl as [|x l Hl IH Hx]; intros [|n]; simpl; try constructor.
  - apply IH.
  - by apply Forall_take.
Qed.

End Sorting.

(** ** Video Search Aggregator *)

Lemma page_videos_length (p : search_page) (vs : list Video.t) :
  page_videos p = Ok vs → length vs = length (items p).
Proof.
  unfold page_videos. destruct (items p) as [|i its] eqn:E.
  - by intros [= <-].
  - destruct (stats_response p) as [st|]; intros [= <-].
    change (length (video_info (stats_map st) <$> i :: its) = length (i :: its)).
    apply length_fmap.
Qed.

Lemma records_cons (p : search_page) (ps : list search_page) (vs : list Video.t) :
  page_videos p = Ok vs → records (p :: ps) = vs ++ records ps.
Proof. intros E. unfold records; simpl. unfold page_records at 1. by rewrite E. Qed.

Section SearchProperties.
Variable keyword : string.
Variable max_results : Z.
Variables published_after published_before : option string.

#[local] Abbreviation loop :=
  (search_loop keyword max_results published_after published_before).
#[local] Abbreviation search :=
  (search_videos_by_keyword keyword max_results published_after published_before).
#[local] Abbreviation requests :=
  (search_requests keyword max_results published_after published_before).

(** When the count has reached the maximum no request is sent. *)
Lemma search_loop_done videos tok f :
  max_results ≤ Z.of_nat (length videos) → loop videos tok f = (videos, []).
Proof.
  intros H. destruct f; simpl; by destruct (Z.ltb_spec (Z.of_nat (length videos)) max_results); try lia.
Qed.

(** The loop only ever appends. *)
Lemma search_loop_length_bound (cap : nat) videos tok f :
  Forall (λ p, (length (items p) ≤ cap)%nat) (responses f) →
  Z.of_nat (length (loop videos tok f).1)
  ≤ Z.max (Z.of_nat (length videos)) (max_results - 1 + Z.of_nat cap).
Proof.
  revert videos tok.
  induction f as [p|p token rest IH|e]; intros videos tok Hcap; simpl in *;
    destruct (Z.ltb_spec (Z.of_nat (length videos)) max_results) as [Hlt|Hge];
    simpl; try lia.
  - apply Forall_cons in Hcap as [Hp _].
    destruct (page_videos p) as [vs|] eqn:E; simpl; [|lia].
    apply page_videos_length in E. rewrite length_app. lia.
  - apply Forall_cons in Hcap as [Hp Hrest].
    destruct (page_videos p) as [vs|] eqn:E; simpl; [|lia].
    apply page_videos_length in E.
    destruct token as [|c token]; simpl.
    + rewrite length_app. lia.
    + specialize (IH (videos ++ vs) (Some (String c token)) Hrest).
      destruct (loop (videos ++ vs) _ rest) as [out sent]; simpl in *.
      rewrite length_app in IH. lia.
Qed.

(** Every request asks for [min(50, remaining)] items, and is sent only
    while fewer than [max_results] records are held. *)
Lemma search_loop_requests videos tok f i req :
  (loop videos tok f).2 !! i = Some req →
  let held := Z.of_nat (length videos + length (records (take i (responses f)))) in
  held < max_results ∧ maxResults req = Z.min 50 (max_results - held).
Proof.
  assert (∀ vs : list Video.t, Z.of_nat (length vs) < max_results →
    Z.of_nat (length vs + 0) < max_results
    ∧ Z.min 50 (max_results - Z.of_nat (length vs))
      = Z.min 50 (max_results - Z.of_nat (length vs + 0))) as first_request.
  { intros vs Hvs. by rewrite Nat.add_0_r. }
  revert videos tok i.
  induction f as [p|p token rest IH|e]; intros videos tok i; simpl;
    destruct (Z.ltb_spec (Z.of_nat (length videos)) max_results) as [Hlt|Hge];
    simpl; try done.
  - destruct (page_videos p); destruct i; simpl; try done;
      intros [= <-]; simpl; by apply first_request.
  - destruct (page_videos p) as [vs|] eqn:E; simpl.
    + destruct token as [|c token]; simpl.
      * destruct i; simpl; try done. intros [= <-]; simpl. by apply first_request.
      * specialize (IH (videos ++ vs) (Some (String c token))).
        destruct (loop (videos ++ vs) _ rest) as [out sent]; simpl in *.
        destruct i as [|i].
        -- simpl. intros [= <-]; simpl. by apply first_request.
        -- intros Hreq. change (sent !! i = Some req) in Hreq.
           apply IH in Hreq. cbv zeta in *.
           change (take (S i) (p :: responses rest))
             with (p :: take i (responses rest)).
           rewrite (records_cons _ _ _ E). rewrite !length_app in *.
           destruct Hreq as [Hheld ->]. split; [lia|]. f_equal. lia.
    + destruct i; simpl; try done. intros [= <-]; simpl. by apply first_request.
  - destruct i; simpl; try done. intros [= <-]; simpl. by apply first_request.
Qed.

(** When no page holds more items than its request asked for, the count
    never passes [max_results]. *)
Lemma search_loop_within_max videos tok f :
  (∀ i req p, (loop videos tok f).2 !! i = Some req → responses f !! i = Some p →
     Z.of_nat (length (items p)) ≤ maxResults req) →
  Z.of_nat (length (loop videos tok f).1)
  ≤ Z.max (Z.of_nat (length videos)) max_results.
Proof.
  revert videos tok.
  induction f as [p|p token rest IH|e]; intros videos tok; simpl;
    destruct (Z.ltb_spec (Z.of_nat (length videos)) max_results) as [Hlt|Hge];
    simpl; try lia.
  - intros H. destruct (page_videos p) as [vs|] eqn:E; simpl in *; [|lia].
    specialize (H O _ p eq_refl eq_refl). simpl in H.
    apply page_videos_length in E. rewrite length_app. lia.
  - intros H. destruct (page_videos p) as [vs|] eqn:E; simpl in *; [|lia].
    pose proof (page_videos_length _ _ E) as Hlen.
    destruct token as [|c token]; simpl in *.
    + specialize (H O _ p eq_refl eq_refl). simpl in H. rewrite length_app. lia.
    + specialize (IH (videos ++ vs) (Some (String c token))).
      destruct (loop (videos ++ vs) _ rest) as [out sent]; simpl in *.
      pose proof (H O _ p eq_refl eq_refl) as H0. simpl in H0.
      rewrite length_app in IH.
      etrans; [apply IH|lia].
      intros i req p' Hreq Hp'. by apply (H (S i)).
Qed.


End SearchProperties.

(** C3: for every page sequence, keyword, maximum and date window, the list
    the Video Search Aggregator returns is sorted by view count in
    descending order; it is a rearrangement of what the page loop gathered,
    also when a failed request ended the loop early. *)
Theorem search_result_sorted (keyword : string) (max_results : Z)
    (published_after published_before : option string) (f : feed search_page) :
  sorted_desc Video.view_count
    (search_videos_by_keyword keyword max_results published_after published_before f)
  ∧ search_videos_by_keyword keyword max_results published_after published_before f
    ≡ₚ (search_loop keyword max_results published_after published_before [] None f).1.
Proof.
  split; [apply sort_desc_sorted | apply sort_desc_perm].
Qed.

(** C2: the search loop sends a request only while fewer than the maximum
    are held, and asks for [min(50, remaining)] items each time; nothing is
    cut after the loop.  So with pages of at most 50 items the result
    exceeds the requested maximum by less than one page (fewer than 50
    records), such an overshoot does occur when a page holds more than was
    asked for, and when every page holds at most what was asked for the
    result never exceeds the maximum. *)
Theorem search_overshoot_within_one_page (keyword : string) (max_results : Z)
    (published_after published_before : option string) (f : feed search_page) :
  0 ≤ max_results →
  (∀ i req,
     search_requests keyword max_results published_after published_before f !! i
       = Some req →
     Z.of_nat (length (records (take i (responses f)))) < max_results
     ∧ maxResults req
       = Z.min 50 (max_results - Z.of_nat (length (records (take i (responses f))))))
  ∧ (pages_at_most 50 f →
     Z.of_nat (length (search_videos_by_keyword keyword max_results
                         published_after published_before f))
     < max_results + 50)
  ∧ (pages_honour_requests keyword max_results published_after published_before f →
     Z.of_nat (length (search_videos_by_keyword keyword max_results
                         published_after published_before f))
     ≤ max_results)
  ∧ (∃ g, pages_at_most 50 g
        ∧ length (search_videos_by_keyword keyword 1
                    published_after published_before g) = 50%nat).
Proof.
  intros Hmax. unfold search_videos_by_keyword. repeat split.
  - by eapply (search_loop_requests _ _ _ _ [] None f i req).
  - by eapply (search_loop_requests _ _ _ _ [] None f i req).
  - intros Hcap. rewrite sort_desc_length.
    pose proof (search_loop_length_bound keyword max_results published_after
                  published_before 50 [] None f Hcap) as H.
    simpl in H. lia.
  - intros Hhon. rewrite sort_desc_length.
    pose proof (search_loop_within_max keyword max_results published_after
                  published_before [] None f Hhon) as H.
    simpl in H. lia.
  - exists (Last full_page). split.
    + apply Forall_cons; split; [vm_compute; lia | constructor].
    + rewrite sort_desc_length. reflexivity.
Qed.

Lemma search_overshoot_within_one_page_witness :
  Z.of_nat (length (search_videos_by_keyword "demo" 1 None None (Last full_page)))
  < 1 + 50
  ∧ Z.of_nat (length (search_videos_by_keyword "demo" 10 None None (Last sample_page)))
    ≤ 10.
Proof.
  split.
  - destruct (search_overshoot_within_one_page "demo" 1 None None (Last full_page))
      as (_ & Hcap & _); [lia|].
    apply Hcap. apply Forall_cons; split; [vm_compute; lia | constructor].
  - destruct (search_overshoot_within_one_page "demo" 10 None None (Last sample_page))
      as (_ & _ & Hhonour & _); [lia|].
    apply Hhonour. intros [|i] req p Hreq Hp; [|done].
    vm_compute in Hreq, Hp. simplify_eq. simpl. lia.
Defined.



(** ** Comment Ranker *)

Lemma slice_to_nonneg {A : Type} (n : Z) (l : list A) :
  0 ≤ n → slice_to n l = take (Z.to_nat n) l.
Proof. intros H. unfold slice_to. by destruct (Z.leb_spec 0 n); [|lia]. Qed.

Lemma gathered_cons video_id (page : list thread_item) pages :
  gathered video_id (page :: pages)
  = (comment_data video_id <$> page) ++ gathered video_id pages.
Proof. unfold gathered. simpl. by rewrite fmap_app. Qed.

Section RankerProperties.
Variable video_id : string.
Variable max_comments : Z.

#[local] Abbreviation cloop := (comments_loop video_id max_comments).
#[local] Abbreviation limit := (fetch_limit max_comments).

(** Every request asks for [min(100, remaining)] threads, and is sent
    only while fewer than [fetch_limit] have been fetched. *)
Lemma comments_loop_requests comments total tok f i req :
  (cloop comments total tok f).2 !! i = Some req →
  let fetched := total + Z.of_nat (length (concat (take i (responses f)))) in
  fetched < limit ∧ threads_maxResults req = Z.min 100 (limit - fetched).
Proof.
  assert (∀ t, t < limit →
    t + Z.of_nat 0 < limit
    ∧ Z.min 100 (limit - t) = Z.min 100 (limit - (t + Z.of_nat 0))) as first_request.
  { intros t Ht. by rewrite Z.add_0_r. }
  revert comments total tok i.
  induction f as [p|p token rest IH|e]; intros comments total tok i; simpl;
    destruct (Z.ltb_spec total limit) as [Hlt|Hge]; simpl; try done.
  - destruct i; simpl; try done. intros [= <-]; simpl. by apply first_request.
  - destruct token as [|c token]; simpl.
    + destruct i; simpl; try done. intros [= <-]; simpl. by apply first_request.
    + specialize (IH (comments ++ (comment_data video_id <$> p))
                     (total + Z.of_nat (length p)) (Some (String c token))).
      destruct (cloop _ _ _ rest) as [[out err] sent]; simpl in *.
      destruct i as [|i].
      * simpl. intros [= <-]; simpl. by apply first_request.
      * intros Hreq. change (sent !! i = Some req) in Hreq.
        apply IH in Hreq. cbv zeta in *.
        change (take (S i) (p :: responses rest)) with (p :: take i (responses rest)).
        change (concat (p :: take i (responses rest)))
          with (p ++ concat (take i (responses rest))).
        rewrite length_app. destruct Hreq as [Hheld ->]. split; [lia|]. f_equal. lia.
  - destruct i; simpl; try done. intros [= <-]; simpl. by apply first_request.
Qed.

(** Pages are appended whole until the request that fails. *)
Lemma comments_loop_chain (pre : list (list thread_item * string)) comments total tok e :
  tokens_truthy pre →
  total + Z.of_nat (length (concat pre.*1)) < limit →
  (cloop comments total tok (chain pre (Failed e))).1
  = (comments ++ gathered video_id pre.*1, Some e).
Proof.
  revert comments total tok.
  induction pre as [|[p t] pre IH]; intros comments total tok Htok Hlen.
  - change (gathered video_id [].*1) with (@nil Comment.t). rewrite app_nil_r.
    simpl in *. by destruct (Z.ltb_spec total limit); [|lia].
  - apply Forall_cons in Htok as [Ht Htok]. simpl in Ht.
    change (((p, t) :: pre).*1) with (p :: pre.*1) in *.
    change (concat (p :: pre.*1)) with (p ++ concat pre.*1) in Hlen.
    rewrite length_app in Hlen. rewrite gathered_cons. simpl.
    destruct (Z.ltb_spec total limit); [|lia].
    destruct t as [|c t]; [done|].
    specialize (IH (comments ++ (comment_data video_id <$> p))
                   (total + Z.of_nat (length p)) (Some (String c t)) Htok).
    destruct (cloop _ _ _ (chain pre (Failed e))) as [[out err] sent]; simpl.
    rewrite app_assoc. apply IH. lia.
Qed.

(** What the function makes of the outcome of the loop. *)
Lemma get_top_comments_unfold f :
  get_top_comments_by_likes video_id max_comments f
  = let comments := (cloop [] 0 None f).1.1 in
    match loop_error video_id max_comments f with
    | Some (Reason _) | None =>
        Return (slice_to max_comments (sort_desc Comment.like_count comments))
    | Some e => _ ← error_reason e; Return []
    end.
Proof.
  unfold get_top_comments_by_likes, loop_error.
  destruct (cloop [] 0 None f) as [[comments err] sent]; simpl.
  by destruct err as [[]|].
Qed.

End RankerProperties.

(** C4: for a requested top-N of at least 0, the candidate target is
    [min(5*N, 100)]: a request is sent only while fewer candidates than
    that have been fetched and asks for [min(100, remaining)]; the sequence
    returned is the first N of the candidates sorted by like count, so it
    has at most N elements and is sorted in descending order; and a
    sequence is returned whenever the loop ends without an error or with an
    error that carries a reason code. *)
Theorem ranker_top_n (video_id : string) (max_comments : Z)
    (f : feed (list thread_item)) :
  0 ≤ max_comments →
  fetch_limit max_comments = Z.min (5 * max_comments) 100
  ∧ (∀ i req,
       comment_requests video_id max_comments f !! i = Some req →
       Z.of_nat (length (concat (take i (responses f)))) < Z.min (5 * max_comments) 100
       ∧ threads_maxResults req
         = Z.min 100 (Z.min (5 * max_comments) 100
                      - Z.of_nat (length (concat (take i (responses f))))))
  ∧ (∀ r,
       get_top_comments_by_likes video_id max_comments f = Return r →
       Z.of_nat (length r) ≤ max_comments
       ∧ sorted_desc Comment.like_count r
       ∧ r = take (Z.to_nat max_comments)
               (sort_desc Comment.like_count
                  (comments_loop video_id max_comments [] 0 None f).1.1))
  ∧ ((∀ e, loop_error video_id max_comments f = Some e → ∃ reason, e = Reason reason) →
     ∃ r, get_top_comments_by_likes video_id max_comments f = Return r).
Proof.
  intros HN.
  assert (fetch_limit max_comments = Z.min (5 * max_comments) 100) as Hlimit.
  { unfold fetch_limit. f_equal. lia. }
  split; [done|]. rewrite <- Hlimit. repeat split.
  - by eapply (comments_loop_requests _ _ [] 0 None f i req).
  - by eapply (comments_loop_requests _ _ [] 0 None f i req).
  - rewrite get_top_comments_unfold in H. simpl in H.
    destruct (loop_error _ _ _) as [[]|]; simplify_eq;
      rewrite slice_to_nonneg by done; rewrite length_take; lia.
  - rewrite get_top_comments_unfold in H. simpl in H.
    destruct (loop_error _ _ _) as [[]|]; simplify_eq;
      rewrite slice_to_nonneg by done; apply sorted_desc_take, sort_desc_sorted.
  - rewrite get_top_comments_unfold in H. simpl in H.
    destruct (loop_error _ _ _) as [[]|]; simplify_eq; by rewrite slice_to_nonneg.
  - intros Herr. rewrite get_top_comments_unfold. simpl.
    destruct (loop_error _ _ _) as [e|]; [|by eexists].
    destruct (Herr e eq_refl) as [reason ->]. by eexists.
Qed.

Lemma ranker_top_n_witness :
  get_top_comments_by_likes "aaaaaaaaaaa" 2
    (Last [sample_thread "c1" 3; sample_thread "c2" 9; sample_thread "c3" 5])
  = Return [comment_data "aaaaaaaaaaa" (sample_thread "c2" 9);
            comment_data "aaaaaaaaaaa" (sample_thread "c3" 5)]
  ∧ fetch_limit 2 = 10.
Proof.
  destruct (ranker_top_n "aaaaaaaaaaa" 2
              (Last [sample_thread "c1" 3; sample_thread "c2" 9; sample_thread "c3" 5]))
    as (Hlimit & _ & Hret & _); [lia|].
  split; [reflexivity | exact Hlimit].
Defined.

(** C1 (as stated): a failure after a page of comments has been fetched
    does not give the empty sequence. *)
Lemma ranker_empty_on_failure_fails : ¬ ranker_empty_on_failure.
Proof.
  intros H.
  specialize (H "aaaaaaaaaaa" 10
    (Next [sample_thread "c1" 3] "CAUQAA" (Failed (Reason "commentsDisabled")))
    (Reason "commentsDisabled") eq_refl).
  vm_compute in H. discriminate H.
Qed.

(** C1 (amended): when a request for comment threads fails with an error
    that carries a reason code, after any number of pages fetched
    successfully, the Comment Ranker does not raise: it returns the first N
    of the comments of those pages sorted by like count in descending
    order; when the first request fails, that is the empty sequence. *)
Theorem ranker_failure_returns_gathered (video_id : string) (max_comments : Z)
    (pre : list (list thread_item * string)) (reason : string) :
  tokens_truthy pre →
  Z.of_nat (length (concat pre.*1)) < fetch_limit max_comments →
  get_top_comments_by_likes video_id max_comments (chain pre (Failed (Reason reason)))
  = Return (slice_to max_comments
              (sort_desc Comment.like_count (gathered video_id pre.*1)))
  ∧ get_top_comments_by_likes video_id max_comments (Failed (Reason reason))
    = Return [].
Proof.
  intros Htok Hlen. split.
  - rewrite get_top_comments_unfold. unfold loop_error.
    rewrite comments_loop_chain by (done || lia). done.
  - rewrite get_top_comments_unfold. unfold loop_error. simpl.
    destruct (0 <? fetch_limit max_comments); simpl; unfold slice_to.
    all: by destruct (0 <=? max_comments); rewrite take_nil.
Qed.

Lemma ranker_failure_returns_gathered_witness :
  get_top_comments_by_likes "aaaaaaaaaaa" 10
    (chain [([sample_thread "c1" 3; sample_thread "c2" 9], "CAUQAA")]
       (Failed (Reason "commentsDisabled")))
  = Return [comment_data "aaaaaaaaaaa" (sample_thread "c2" 9);
            comment_data "aaaaaaaaaaa" (sample_thread "c1" 3)].
Proof.
  refine (proj1 (ranker_failure_returns_gathered "aaaaaaaaaaa" 10
            [([sample_thread "c1" 3; sample_thread "c2" 9], "CAUQAA")]
            "commentsDisabled" _ _)).
  - repeat constructor.
  - vm_compute. reflexivity.
Defined.

(** ** Date Range Builder *)

Lemma date_bound_relative now (n : Z) t (date : option string) (suffix : string) :
  n ≠ 0 → PyStr.truthy date = false → PyDate.sub_days now n = Return t →
  date_bound now (Some n) date suffix = Return (Some (PyDate.strftime_ymd t +:+ suffix)).
Proof.
  intros Hn Hdate Ht. unfold date_bound. rewrite Hdate. simpl.
  destruct (Z.eqb_spec n 0); [done|]. simpl. by rewrite Ht.
Qed.

Lemma date_bound_zero now (date : option string) (suffix : string) :
  date_bound now (Some 0) date suffix = date_bound now None date suffix.
Proof. unfold date_bound. by destruct (PyStr.truthy date). Qed.

(** C6 (as stated): on the end side a relative offset does not give a
    start-of-day timestamp. *)
Lemma relative_offset_floors_both_sides_fails : ¬ relative_offset_floors_both_sides.
Proof.
  intros H.
  destruct (H sample_now 3 (PyDate.mkDatetime 2024 3 7 15 4 5)) as [_ Hend];
    [lia|reflexivity|].
  vm_compute in Hend. discriminate Hend.
Qed.

(** C6 (amended): for a positive N for which the date N days before the
    current time exists, and no absolute date on that side, the start side
    is the date of the current time minus N days at [T00:00:00Z], and the
    end side is that date at [T23:59:59Z]; the other side is whatever its
    own arguments give. *)
Theorem relative_offset_bounds (now : PyDate.datetime) (n : Z) (t : PyDate.datetime)
    (date : option string) :
  0 < n →
  PyDate.sub_days now n = Return t →
  PyStr.truthy date = false →
  (∀ days_ago_end end_date b,
     date_bound now days_ago_end end_date "T23:59:59Z" = Return b →
     get_date_range_iso now (Some n) days_ago_end date end_date
     = Return (Some (PyDate.strftime_ymd t +:+ "T00:00:00Z"), b))
  ∧ (∀ days_ago_start start_date a,
       date_bound now days_ago_start start_date "T00:00:00Z" = Return a →
       get_date_range_iso now days_ago_start (Some n) start_date date
       = Return (a, Some (PyDate.strftime_ymd t +:+ "T23:59:59Z"))).
Proof.
  intros Hn Ht Hdate. split.
  - intros de ed b Hb. unfold get_date_range_iso.
    rewrite (date_bound_relative now n t) by (done || lia). simpl. by rewrite Hb.
  - intros ds sd a Ha. unfold get_date_range_iso.
    rewrite Ha. simpl.
    by rewrite (date_bound_relative now n t) by (done || lia).
Qed.

Lemma relative_offset_bounds_witness :
  get_date_range_iso sample_now (Some 10) (Some 3) None None
  = Return (Some "2024-02-29T00:00:00Z", Some "2024-03-07T23:59:59Z").
Proof.
  exact (proj1 (relative_offset_bounds sample_now 10
                  (PyDate.mkDatetime 2024 2 29 15 4 5) None
                  ltac:(lia) eq_refl eq_refl)
           (Some 3) None (Some "2024-03-07T23:59:59Z") eq_refl).
Defined.

(** C10: on either side, a relative offset of 0 days gives what no offset
    gives; with no absolute date on that side, that is an absent bound. *)
Theorem zero_days_ago_is_no_offset (now : PyDate.datetime)
    (days_ago : option Z) (start_date end_date : option string) :
  get_date_range_iso now (Some 0) days_ago start_date end_date
  = get_date_range_iso now None days_ago start_date end_date
  ∧ get_date_range_iso now days_ago (Some 0) start_date end_date
    = get_date_range_iso now days_ago None start_date end_date
  ∧ get_date_range_iso now (Some 0) days_ago None end_date
    = (b ← date_bound now days_ago end_date "T23:59:59Z"; Return (None, b))
  ∧ get_date_range_iso now days_ago (Some 0) start_date None
    = (a ← date_bound now days_ago start_date "T00:00:00Z"; Return (a, None))
  ∧ get_date_range_iso now (Some 0) (Some 0) None None = Return (None, None).
Proof.
  unfold get_date_range_iso. rewrite !date_bound_zero. repeat split.
Qed.

(** ** Report Exporter *)

Lemma list_index_elem {A : Type} `{EqDecision A} (x : A) (l : list A) :
  x ∈ l →
  ∃ i, list_index x l = Return i ∧ l !! i = Some x
       ∧ ∀ j, (j < i)%nat → l !! j ≠ Some x.
Proof.
  induction l as [|y l IH]; [by intros ?%elem_of_nil|].
  intros Hin. simpl. destruct (decide (y = x)) as [->|Hne].
  - exists O. split; [done|]. split; [done|]. intros; lia.
  - apply elem_of_cons in Hin as [->|Hin]; [done|].
    destruct (IH Hin) as (i & -> & Hi & Hfirst). exists (S i).
    split; [done|]. split; [done|].
    intros [|j] Hj; simpl; [congruence|]. apply Hfirst. lia.
Qed.

Lemma list_index_NoDup {A : Type} `{EqDecision A} (l : list A) (i : nat) (x : A) :
  NoDup l → l !! i = Some x → list_index x l = Return i.
Proof.
  intros Hnd Hi.
  destruct (list_index_elem x l) as (j & Hj & Hlj & _).
  { by eapply list_elem_of_lookup_2. }
  rewrite Hj. f_equal. by eapply NoDup_lookup.
Qed.

Section ExporterProperties.
Variable res : results.

Lemma rank_of_elem video :
  video ∈ videos res →
  ∃ i, rank_of res video = Return (Z.of_nat i + 1) ∧ videos res !! i = Some video.
Proof.
  intros Hin. destruct (list_index_elem video (videos res) Hin) as (i & Hi & Hl & _).
  exists i. unfold rank_of. by rewrite Hi.
Qed.

Lemma comment_rows_length video i comments :
  video ∈ videos res →
  ∃ rows, comment_rows res video i comments = Return rows
          ∧ length rows = length comments.
Proof.
  intros Hin. destruct (rank_of_elem video Hin) as (k & Hk & _).
  revert i. induction comments as [|c comments IH]; intros i; simpl.
  - by exists [].
  - rewrite Hk. simpl. destruct (IH (i + 1)) as (rows & -> & Hlen). simpl.
    eexists; split; [done|]. simpl. by rewrite Hlen.
Qed.

Lemma detail_rows_length todo :
  todo ⊆ videos res →
  ∃ rows, detail_rows res todo = Return rows
          ∧ length rows = sum_list ((λ v, length (top_comments v)) <$> todo).
Proof.
  induction todo as [|video todo IH]; intros Hsub; simpl.
  - by exists [].
  - destruct (comment_rows_length video 1 (top_comments video)) as (here & -> & Hhere).
    { apply Hsub. left. }
    destruct IH as (rows & -> & Hrows).
    { intros v Hv. apply Hsub. by right. }
    simpl. eexists; split; [done|]. rewrite length_app. by rewrite Hhere, Hrows.
Qed.

Lemma overview_rows_length todo :
  todo ⊆ videos res →
  ∃ rows, overview_rows res todo = Return rows ∧ length rows = length todo.
Proof.
  induction todo as [|video todo IH]; intros Hsub; simpl.
  - by exists [].
  - destruct (rank_of_elem video) as (k & -> & _).
    { apply Hsub. left. }
    destruct IH as (rows & -> & Hrows).
    { intros v Hv. apply Hsub. by right. }
    simpl. eexists; split; [done|]. simpl. by rewrite Hrows.
Qed.

(** When no entry of the report occurs twice, the rank on the overview
    sheet is the position of the entry. *)
Lemma overview_rows_ranks (k : nat) todo rows :
  NoDup (videos res) →
  drop k (videos res) = todo →
  overview_rows res todo = Return rows →
  ∀ i row, rows !! i = Some row → Overview.Rank row = Z.of_nat (k + i) + 1.
Proof.
  intros Hnd. revert k rows.
  induction todo as [|video todo IH]; intros k rows Hdrop; simpl.
  - by intros [= <-] i row.
  - assert (videos res !! k = Some video) as Hk.
    { rewrite <- (Nat.add_0_r k), <- lookup_drop, Hdrop. done. }
    unfold rank_of. rewrite (list_index_NoDup _ _ _ Hnd Hk). simpl.
    destruct (overview_rows res todo) as [rows'|] eqn:Hrows; [|done].
    simpl. intros [= <-] [|i] row; simpl.
    + intros [= <-]. simpl. by rewrite Nat.add_0_r.
    + intros Hrow. rewrite Nat.add_succ_r.
      apply (IH (S k) rows'); [|done|done].
      rewrite (drop_S _ _ _ Hk) in Hdrop. by simplify_eq.
Qed.

End ExporterProperties.



(** C7 (the code at the failing input): for a report that lists the same
    video result twice, the rows of the second entry carry rank 1 on both
    sheets, not its position 2. *)
Theorem export_rank_of_repeated_entry :
  ∃ book,
    save_to_excel twice_listed writer_saves sample_now (Some "out") ∅
    = Return (Some "out.xlsx", <["out.xlsx" := book]> ∅)
    ∧ Overview.Rank <$> Video_Overview book = [1; 1]
    ∧ Detail.Video_Rank <$> Top_Comments book = [1; 1].
Proof.
  eexists. split; [reflexivity|]. split; reflexivity.
Qed.

(** The Orchestrator builds that report when the search lists a video
    twice and the platform serves the same comments both times. *)
Lemma twice_listed_reachable :
  extract_top_comments_from_videos sample_now
    (λ _, Last [sample_thread "c1" 3]) [sample_video; sample_video] 1
  = Return twice_listed.
Proof. reflexivity. Qed.

(** ** Identifier Resolver *)

Section Strings.

Lemma app_cons (c : ascii) (s t : string) : String c s +:+ t = String c (s +:+ t).
Proof. reflexivity. Qed.

Lemma app_empty_r (s : string) : s +:+ "" = s.
Proof. induction s as [|c s IH]; [done|]. by rewrite app_cons, IH. Qed.

Lemma app_assoc_str (s t u : string) : (s +:+ t) +:+ u = s +:+ t +:+ u.
Proof. induction s as [|c s IH]; [done|]. by rewrite !app_cons, IH. Qed.

Lemma length_app_str (s t : string) :
  String.length (s +:+ t) = (String.length s + String.length t)%nat.
Proof. induction s as [|c s IH]; [done|]. rewrite app_cons. simpl. by rewrite IH. Qed.

Lemma prefix_app (p s : string) :
  String.prefix p s = true ↔ ∃ t, s = p +:+ t.
Proof.
  revert s. induction p as [|c p IH]; intros s.
  - split; [|by destruct s]. intros _. exists s. reflexivity.
  - destruct s as [|d s]; simpl.
    + split; [done|]. by intros [t Ht].
    + destruct (ascii_dec c d) as [->|Hne].
      * rewrite IH. split; intros [t Ht]; exists t.
        -- by rewrite app_cons, Ht.
        -- rewrite app_cons in Ht. by simplify_eq.
      * split; [done|]. intros [t Ht]. rewrite app_cons in Ht. by simplify_eq.
Qed.

#[local] Arguments String.prefix : simpl never.

Lemma drop_app (p t : string) : PyStr.drop (String.length p) (p +:+ t) = t.
Proof. induction p as [|c p IH]; [by destruct t|]. by rewrite app_cons. Qed.

(** [cut] finds an occurrence of the separator... *)
Lemma cut_Some (sep s b a : string) :
  PyStr.cut sep s = Some (b, a) → s = b +:+ sep +:+ a.
Proof.
  revert b. induction s as [|c s IH]; intros b; simpl.
  - destruct sep; intros H; vm_compute in H; [|done]. by simplify_eq.
  - destruct (String.prefix sep (String c s)) eqn:E.
    + intros ?; simplify_eq. apply prefix_app in E as [t Ht].
      rewrite Ht. by rewrite drop_app.
    + destruct (PyStr.cut sep s) as [[b0 a0]|]; [|done].
      intros ?; simplify_eq. rewrite app_cons. f_equal. by apply IH.
Qed.

(** ... and it is the first one. *)
Lemma cut_first (sep s b a b' a' : string) :
  PyStr.cut sep s = Some (b, a) → s = b' +:+ sep +:+ a' →
  (String.length b ≤ String.length b')%nat.
Proof.
  revert b b'. induction s as [|c s IH]; intros b b'; simpl.
  - destruct sep; intros H _; vm_compute in H; [|done]. simplify_eq. simpl. lia.
  - destruct (String.prefix sep (String c s)) eqn:E.
    + intros ? _; simplify_eq. simpl. lia.
    + destruct (PyStr.cut sep s) as [[b0 a0]|] eqn:Hcut; [|done].
      intros ? Hs; simplify_eq. destruct b' as [|d b'].
      * assert (String.prefix sep (String c s) = true) as E'; [|congruence].
        apply prefix_app. by exists a'.
      * rewrite app_cons in Hs. simplify_eq. simpl.
        apply le_n_S. by eapply IH.
Qed.

Lemma cut_unfold (sep s : string) :
  PyStr.cut sep s
  = if String.prefix sep s then Some ("", PyStr.drop (String.length sep) s)
    else match s with
         | "" => None
         | String c s' =>
             match PyStr.cut sep s' with
             | Some (b, a) => Some (String c b, a)
             | None => None
             end
         end.
Proof. by destruct s. Qed.

Lemma cut_app (sep b a : string) : is_Some (PyStr.cut sep (b +:+ sep +:+ a)).
Proof.
  induction b as [|c b IH]; rewrite cut_unfold.
  - assert (String.prefix sep ("" +:+ sep +:+ a) = true) as ->; [|by eexists].
    apply prefix_app. by exists a.
  - rewrite app_cons.
    destruct (String.prefix sep (String c (b +:+ sep +:+ a))); [by eexists|].
    destruct IH as [[b0 a0] ->]. by eexists.
Qed.

Lemma contains_cut (sub s : string) :
  PyStr.contains sub s = true ↔ is_Some (PyStr.cut sub s).
Proof.
  induction s as [|c s IH]; rewrite cut_unfold; simpl.
  - destruct (String.prefix sub ""); simpl; [by split; [eexists|]|].
    split; [done|]. by intros [? ?].
  - destruct (String.prefix sub (String c s)); simpl; [by split; [eexists|]|].
    rewrite IH. destruct (PyStr.cut sub s) as [[b a]|]; [by split; eexists|].
    split; by intros [? ?].
Qed.

Lemma contains_app (sub b a : string) : PyStr.contains sub (b +:+ sub +:+ a) = true.
Proof. apply contains_cut, cut_app. Qed.

Lemma contains_app_l (sub x y : string) :
  PyStr.contains sub x = true → PyStr.contains sub (x +:+ y) = true.
Proof.
  intros [[b a] Hcut]%contains_cut. apply cut_Some in Hcut as ->.
  rewrite !app_assoc_str. apply contains_app.
Qed.

Lemma cut_shorter (sep s b a : string) :
  sep ≠ "" → PyStr.cut sep s = Some (b, a) →
  (String.length a < String.length s)%nat.
Proof.
  intros Hsep ->%cut_Some. rewrite !length_app_str.
  destruct sep; [done|]. simpl. lia.
Qed.

(** The text before the first occurrence is free of the separator. *)
Lemma cut_before_free (sep s b a : string) :
  sep ≠ "" → PyStr.cut sep s = Some (b, a) → PyStr.contains sep b = false.
Proof.
  intros Hsep Hcut. destruct (PyStr.contains sep b) eqn:E; [|done].
  apply contains_cut in E as [[b1 b2] Hb].
  pose proof (cut_Some _ _ _ _ Hcut) as Hs.
  pose proof (cut_Some _ _ _ _ Hb) as ->.
  rewrite !app_assoc_str in Hs.
  pose proof (cut_first _ _ _ _ _ _ Hcut Hs) as Hlen.
  rewrite !length_app_str in Hlen. destruct sep; [done|]. simpl in Hlen. lia.
Qed.

Lemma split_fuel_S (fuel : nat) (sep s : string) :
  PyStr.split_fuel (S fuel) sep s
  = match PyStr.cut sep s with
    | Some (b, a) => b :: PyStr.split_fuel fuel sep a
    | None => [s]
    end.
Proof. reflexivity. Qed.

Lemma split_fuel_enough (sep : string) (n m : nat) (s : string) :
  sep ≠ "" → (String.length s ≤ n)%nat → (String.length s ≤ m)%nat →
  PyStr.split_fuel n sep s = PyStr.split_fuel m sep s.
Proof.
  intros Hsep. revert m s.
  induction n as [|n IH]; intros [|m] s Hn Hm; simpl; try done.
  - destruct s; [|simpl in Hn; lia]. rewrite cut_unfold. by destruct sep.
  - destruct s; [|simpl in Hm; lia]. rewrite cut_unfold. by destruct sep.
  - destruct (PyStr.cut sep s) as [[b a]|] eqn:Hcut; [|done].
    apply cut_shorter in Hcut; [|done]. f_equal. apply IH; lia.
Qed.

(** [split] is [str.split]: cut at the first occurrence and split the rest. *)
Lemma split_unfold (sep s : string) :
  sep ≠ "" →
  PyStr.split sep s
  = match PyStr.cut sep s with
    | Some (b, a) => b :: PyStr.split sep a
    | None => [s]
    end.
Proof.
  intros Hsep. unfold PyStr.split. destruct s as [|c s].
  - rewrite cut_unfold. by destruct sep.
  - change (String.length (String c s)) with (S (String.length s)).
    rewrite split_fuel_S.
    destruct (PyStr.cut sep (String c s)) as [[b a]|] eqn:Hcut; [|done].
    apply cut_shorter in Hcut; [|done]. f_equal.
    apply split_fuel_enough; simpl in *; [done|lia|lia].
Qed.

Lemma split_head (sep s : string) :
  sep ≠ "" → PyStr.split sep s !! O = Some (upto sep s).
Proof.
  intros Hsep. rewrite split_unfold by done. unfold upto.
  by destruct (PyStr.cut sep s) as [[b a]|].
Qed.

Lemma split_second (sep s b a : string) :
  sep ≠ "" → PyStr.cut sep s = Some (b, a) →
  PyStr.split sep s !! 1%nat = Some (upto sep a).
Proof.
  intros Hsep Hcut. rewrite split_unfold, Hcut by done. simpl.
  by apply split_head.
Qed.

Lemma upto_spec (sep s : string) :
  sep ≠ "" →
  ∃ rest, s = upto sep s +:+ rest
          ∧ PyStr.contains sep (upto sep s) = false
          ∧ (rest = "" ∨ String.prefix sep rest = true).
Proof.
  intros Hsep. unfold upto. destruct (PyStr.cut sep s) as [[b a]|] eqn:Hcut.
  - exists (sep +:+ a). split; [by apply cut_Some|]. split.
    + by eapply cut_before_free.
    + right. apply prefix_app. by exists a.
  - exists "". split; [by rewrite app_empty_r|]. split; [|by left].
    destruct (PyStr.contains sep s) eqn:E; [|done].
    apply contains_cut in E as [? E]. congruence.
Qed.

End Strings.

Lemma contains_suffix_of (x sub s : string) :
  PyStr.contains (x +:+ sub) s = true → PyStr.contains sub s = true.
Proof.
  intros [[b a] Hcut]%contains_cut. apply cut_Some in Hcut as ->.
  rewrite app_assoc_str, <- (app_assoc_str b x). apply contains_app.
Qed.

Lemma prefix_app_r (p s t : string) :
  String.prefix p s = true → String.prefix p (s +:+ t) = true.
Proof.
  intros [u ->]%prefix_app. apply prefix_app. exists (u +:+ t).
  by rewrite app_assoc_str.
Qed.

Lemma segment_after_cut (marker stop url pre after : string) :
  marker ≠ "" → stop ≠ "" →
  PyStr.cut marker url = Some (pre, after) →
  segment_after marker stop url (upto stop (upto marker after)).
Proof.
  intros Hmarker Hstop Hcut.
  destruct (upto_spec marker after Hmarker) as (r1 & Hafter & Hfree1 & Hr1).
  destruct (upto_spec stop (upto marker after) Hstop) as (r2 & Hm & Hfree2 & Hr2).
  set (id := upto stop (upto marker after)) in *.
  exists pre, (r2 +:+ r1). repeat split.
  - rewrite (cut_Some _ _ _ _ Hcut). do 2 f_equal.
    rewrite Hafter at 1. rewrite Hm at 1. by rewrite app_assoc_str.
  - intros pre' after' Hurl. by eapply cut_first.
  - destruct (PyStr.contains marker id) eqn:E; [|done].
    apply (contains_app_l _ _ r2) in E. rewrite <- Hm in E. congruence.
  - done.
  - destruct Hr2 as [->|Hr2].
    + destruct Hr1 as [->|Hr1]; [by left|]. right; by left.
    + right; right. by apply prefix_app_r.
Qed.

Lemma resolve_segment (marker stop url : string) :
  marker ≠ "" → stop ≠ "" →
  PyStr.contains marker url = true →
  ∃ id, segment_after marker stop url id
        ∧ (tail ← PyStr.index (PyStr.split marker url) 1;
           id ← PyStr.index (PyStr.split stop tail) 0;
           Return (Some id)) = Return (Some id).
Proof.
  intros Hmarker Hstop [[pre after] Hcut]%contains_cut.
  exists (upto stop (upto marker after)). split; [by eapply segment_after_cut|].
  unfold PyStr.index.
  rewrite (split_second _ _ _ _ Hmarker Hcut). simpl.
  by rewrite (split_head _ _ Hstop).
Qed.

(** C9 (the code at the failing input): a watch URL with a fragment after
    the identifier comes back with the fragment attached, 16 characters
    that are no video identifier, where the docstring promises the video
    identifier or [None]; the same text given bare is refused by the length
    test of the third branch.  A watch URL with nothing after [v=] gives
    the empty string, not [None]. *)
Theorem extract_video_id_keeps_fragment :
  extract_video_id "https://www.youtube.com/watch?v=dQw4w9WgXcQ#t=30"
  = Return (Some "dQw4w9WgXcQ#t=30")
  ∧ String.length "dQw4w9WgXcQ#t=30" = 16%nat
  ∧ extract_video_id "dQw4w9WgXcQ#t=30" = Return None
  ∧ extract_video_id "https://www.youtube.com/watch?v=" = Return (Some "").
Proof. repeat split. Qed.

(** So an identifier that is returned need not have 11 characters. *)
Lemma resolver_gives_11_characters_fails : ¬ resolver_gives_11_characters.
Proof.
  intros H.
  specialize (H "https://www.youtube.com/watch?v=dQw4w9WgXcQ#t=30"
                "dQw4w9WgXcQ#t=30" eq_refl).
  discriminate H.
Qed.

(** The three branches of the Resolver. *)
Lemma extract_video_id_branches (url : string) :
  extract_video_id url
  = if PyStr.contains "youtube.com/watch?v=" url then
      Return (Some (upto "&" (upto "v=" (default ("", "") (PyStr.cut "v=" url)).2)))
    else if PyStr.contains "youtu.be/" url then
      Return (Some (upto "?" (upto "youtu.be/"
                (default ("", "") (PyStr.cut "youtu.be/" url)).2)))
    else if Nat.eqb (String.length url) 11 then Return (Some url)
    else Return None.
Proof.
  unfold extract_video_id.
  destruct (PyStr.contains "youtube.com/watch?v=" url) eqn:Ew.
  - apply (contains_suffix_of "youtube.com/watch?") in Ew.
    apply contains_cut in Ew as [[pre after] Hcut]. rewrite Hcut. simpl.
    unfold PyStr.index. rewrite (split_second "v=" url pre after) by done. simpl.
    by rewrite (split_head "&").
  - destruct (PyStr.contains "youtu.be/" url) eqn:Es; [|reflexivity].
    apply contains_cut in Es as [[pre after] Hcut]. rewrite Hcut. simpl.
    unfold PyStr.index. rewrite (split_second "youtu.be/" url pre after) by done. simpl.
    by rewrite (split_head "?").
Qed.

(** The Resolver never raises: the piece read from a split is always there. *)
Lemma extract_video_id_returns (url : string) :
  ∃ r, extract_video_id url = Return r.
Proof.
  rewrite extract_video_id_branches.
  destruct (PyStr.contains "youtube.com/watch?v=" url); [by eexists|].
  destruct (PyStr.contains "youtu.be/" url); [by eexists|].
  destruct (String.length url =? 11)%nat; by eexists.
Qed.

(** What the three branches compute: for a string that contains
    [youtube.com/watch?v=], the text after the first [v=] of the string,
    up to the next [v=] or [&] or to the end; otherwise, for a string that
    contains [youtu.be/], the text after its first [youtu.be/], up to the
    next [youtu.be/] or [?] or to the end; otherwise the string itself
    when it has 11 characters, and no match when it has not. *)
Lemma extract_video_id_cases (url : string) :
  (PyStr.contains "youtube.com/watch?v=" url = true →
   ∃ id, segment_after "v=" "&" url id
         ∧ extract_video_id url = Return (Some id))
  ∧ (PyStr.contains "youtube.com/watch?v=" url = false →
     PyStr.contains "youtu.be/" url = true →
     ∃ id, segment_after "youtu.be/" "?" url id
           ∧ extract_video_id url = Return (Some id))
  ∧ (PyStr.contains "youtube.com/watch?v=" url = false →
     PyStr.contains "youtu.be/" url = false →
     String.length url = 11%nat →
     extract_video_id url = Return (Some url))
  ∧ (PyStr.contains "youtube.com/watch?v=" url = false →
     PyStr.contains "youtu.be/" url = false →
     String.length url ≠ 11%nat →
     extract_video_id url = Return None).
Proof.
  unfold extract_video_id. repeat split.
  - intros Hwatch. rewrite Hwatch.
    apply resolve_segment; [done|done|].
    by apply (contains_suffix_of "youtube.com/watch?").
  - intros -> Hshort. rewrite Hshort. by apply resolve_segment.
  - intros -> -> ->. done.
  - intros -> -> Hlen. by apply Nat.eqb_neq in Hlen as ->.
Qed.

Lemma extract_video_id_cases_witness :
  ∃ id, segment_after "v=" "&" "https://www.youtube.com/watch?v=dQw4w9WgXcQ&t=3" id
        ∧ extract_video_id "https://www.youtube.com/watch?v=dQw4w9WgXcQ&t=3"
          = Return (Some id).
Proof.
  apply (proj1 (extract_video_id_cases
                  "https://www.youtube.com/watch?v=dQw4w9WgXcQ&t=3")).
  reflexivity.
Defined.

(** ** More on the Comment Ranker *)

Section RankerLoop.
Variable video_id : string.
Variable max_comments : Z.

#[local] Abbreviation rloop := (comments_loop video_id max_comments).
#[local] Abbreviation rlimit := (fetch_limit max_comments).

Lemma comments_loop_idle comments total tok f :
  rlimit ≤ total → rloop comments total tok f = (comments, None, []).
Proof.
  intros H. destruct f; simpl; by destruct (Z.ltb_spec total rlimit); try lia.
Qed.

(** The comments gathered are those of the pages fetched, in page order. *)
Lemma comments_loop_prefix comments total tok f :
  ∃ pages, pages `prefix_of` responses f
           ∧ (rloop comments total tok f).1.1 = comments ++ gathered video_id pages.
Proof.
  revert comments total tok.
  induction f as [p|p token rest IH|e]; intros comments total tok; simpl;
    destruct (Z.ltb_spec total rlimit) as [Hlt|Hge]; simpl;
    try (exists []; split; [apply prefix_nil | by rewrite app_nil_r]).
  - exists [p]. split; [done|]. rewrite gathered_cons. by rewrite app_nil_r.
  - destruct token as [|c token]; simpl.
    + exists [p]. split; [by apply prefix_cons, prefix_nil|].
      rewrite gathered_cons. by rewrite app_nil_r.
    + destruct (IH (comments ++ (comment_data video_id <$> p))
                   (total + Z.of_nat (length p)) (Some (String c token)))
        as (pages & Hpre & Hout).
      destruct (rloop _ _ _ rest) as [[out err] sent]; simpl in *.
      exists (p :: pages). split; [by apply prefix_cons|].
      rewrite gathered_cons, Hout. by rewrite app_assoc.
Qed.

(** With pages that hold no more than was asked for, the count of threads
    fetched never passes the limit. *)
Lemma comments_loop_within_limit comments total tok f :
  (∀ i req p, (rloop comments total tok f).2 !! i = Some req →
     responses f !! i = Some p → Z.of_nat (length p) ≤ threads_maxResults req) →
  total + Z.of_nat (length (rloop comments total tok f).1.1)
    - Z.of_nat (length comments)
  ≤ Z.max total rlimit.
Proof.
  revert comments total tok.
  induction f as [p|p token rest IH|e]; intros comments total tok; simpl;
    destruct (Z.ltb_spec total rlimit) as [Hlt|Hge]; simpl; try lia.
  - intros H. specialize (H O _ p eq_refl eq_refl). simpl in H.
    rewrite length_app, length_fmap. lia.
  - intros H. destruct token as [|c token]; simpl in *.
    + specialize (H O _ p eq_refl eq_refl). simpl in H.
      rewrite length_app, length_fmap. lia.
    + specialize (IH (comments ++ (comment_data video_id <$> p))
                     (total + Z.of_nat (length p)) (Some (String c token))).
      destruct (rloop _ _ _ rest) as [[out err] sent]; simpl in *.
      pose proof (H O _ p eq_refl eq_refl) as H0. simpl in H0.
      rewrite length_app, length_fmap in IH.
      assert (total + Z.of_nat (length p) + Z.of_nat (length out)
              - Z.of_nat (length comments + length p)
              ≤ Z.max (total + Z.of_nat (length p)) rlimit) as Hrec.
      { apply IH. intros i req p' Hreq Hp'. by apply (H (S i)). }
      lia.
Qed.

End RankerLoop.

Lemma gathered_video_id (video_id : string) (pages : list (list thread_item)) :
  Forall (λ c, Comment.video_id c = video_id) (gathered video_id pages).
Proof. unfold gathered. apply Forall_fmap, Forall_true. done. Qed.

Lemma sorted_desc_app_elem {A : Type} (key : A → Z) (l1 l2 : list A) (x y : A) :
  StronglySorted (λ a b, key b ≤ key a) (l1 ++ l2) → x ∈ l1 → y ∈ l2 →
  key y ≤ key x.
Proof.
  induction l1 as [|z l1 IH]; simpl; [by intros _ ?%elem_of_nil|].
  intros Hs Hx Hy. apply StronglySorted_inv in Hs as [Hs Hz].
  apply elem_of_cons in Hx as [->|Hx]; [|by apply IH].
  eapply Forall_forall in Hz; [exact Hz|]. apply elem_of_app. by right.
Qed.

Lemma get_top_comments_return (video_id : string) (max_comments : Z)
    (f : feed (list thread_item)) (r : list Comment.t) :
  get_top_comments_by_likes video_id max_comments f = Return r →
  r = slice_to max_comments
        (sort_desc Comment.like_count (candidates video_id max_comments f)).
Proof.
  rewrite get_top_comments_unfold. unfold candidates. simpl.
  destruct (loop_error _ _ _) as [[]|]; by intros ?; simplify_eq.
Qed.

(** X1: with a requested top-N of 0 or less the Comment Ranker sends no
    request at all and returns the empty sequence, whatever the platform
    would have served. *)
Theorem ranker_nothing_asked (video_id : string) (max_comments : Z)
    (f : feed (list thread_item)) :
  max_comments ≤ 0 →
  comment_requests video_id max_comments f = []
  ∧ get_top_comments_by_likes video_id max_comments f = Return [].
Proof.
  intros HN. unfold comment_requests, get_top_comments_by_likes.
  rewrite comments_loop_idle by (unfold fetch_limit; lia). simpl.
  split; [done|]. unfold slice_to.
  destruct (0 <=? max_comments); by rewrite take_nil.
Qed.

Lemma ranker_nothing_asked_witness :
  comment_requests "aaaaaaaaaaa" (-3) sample_threads = []
  ∧ get_top_comments_by_likes "aaaaaaaaaaa" (-3) sample_threads = Return [].
Proof. apply ranker_nothing_asked. lia. Defined.

(** X2: for a top-N of at least 0, what the Comment Ranker returns are the
    most-liked of the candidates it gathered: it returns min(N, number of
    candidates) comments, they and the candidates left out make up the
    candidates exactly, and no candidate left out has more likes than a
    comment returned. *)
Theorem ranker_returns_most_liked (video_id : string) (max_comments : Z)
    (f : feed (list thread_item)) (r : list Comment.t) :
  0 ≤ max_comments →
  get_top_comments_by_likes video_id max_comments f = Return r →
  length r = Nat.min (Z.to_nat max_comments)
                     (length (candidates video_id max_comments f))
  ∧ ∃ left_out,
      r ++ left_out ≡ₚ candidates video_id max_comments f
      ∧ ∀ x y, x ∈ r → y ∈ left_out → Comment.like_count y ≤ Comment.like_count x.
Proof.
  intros HN ->%get_top_comments_return. rewrite slice_to_nonneg by done.
  set (sorted := sort_desc Comment.like_count (candidates video_id max_comments f)).
  split.
  - rewrite length_take. unfold sorted. by rewrite sort_desc_length.
  - exists (drop (Z.to_nat max_comments) sorted). split.
    + rewrite take_drop. apply sort_desc_perm.
    + intros x y Hx Hy.
      pose proof (sort_desc_sorted Comment.like_count
                    (candidates video_id max_comments f)) as Hs.
      fold sorted in Hs. unfold sorted_desc in Hs.
      rewrite <- (take_drop (Z.to_nat max_comments) sorted) in Hs.
      by eapply sorted_desc_app_elem.
Qed.

Lemma ranker_returns_most_liked_witness :
  length [comment_data "aaaaaaaaaaa" (sample_thread "c2" 9);
          comment_data "aaaaaaaaaaa" (sample_thread "c4" 7)]
  = Nat.min (Z.to_nat 2) (length (candidates "aaaaaaaaaaa" 2 sample_threads)).
Proof.
  exact (proj1 (ranker_returns_most_liked "aaaaaaaaaaa" 2 sample_threads _
                  ltac:(lia) eq_refl)).
Defined.

(** X3: the candidates are the comments of the first pages of the feed, in
    the order served, each stamped with the video identifier asked for; and
    when no page holds more threads than its request asked for, there are
    at most [min(5*N, 100)] of them, so never more than 100. *)
Theorem ranker_candidates (video_id : string) (max_comments : Z)
    (f : feed (list thread_item)) :
  (∃ pages, pages `prefix_of` responses f
            ∧ candidates video_id max_comments f
              = comment_data video_id <$> concat pages)
  ∧ Forall (λ c, Comment.video_id c = video_id) (candidates video_id max_comments f)
  ∧ (thread_pages_honour_requests video_id max_comments f →
     Z.of_nat (length (candidates video_id max_comments f))
     ≤ Z.max 0 (Z.min (5 * max_comments) 100)
     ∧ (length (candidates video_id max_comments f) ≤ 100)%nat).
Proof.
  unfold candidates.
  destruct (comments_loop_prefix video_id max_comments [] 0 None f)
    as (pages & Hpre & Hout).
  split; [by exists pages|]. split.
  - rewrite Hout. apply gathered_video_id.
  - intros Hhon.
    pose proof (comments_loop_within_limit video_id max_comments [] 0 None f Hhon) as H.
    unfold fetch_limit in H. simpl in H. lia.
Qed.

Lemma ranker_candidates_witness :
  (length (candidates "aaaaaaaaaaa" 2 sample_threads) ≤ 100)%nat.
Proof.
  destruct (ranker_candidates "aaaaaaaaaaa" 2 sample_threads) as (_ & _ & H).
  apply H. intros [|[|i]] req p Hreq Hp; vm_compute in Hreq, Hp; simplify_eq;
    simpl; lia.
Defined.

(** ** Extraction Orchestrator *)

Lemma get_top_comments_returns_iff (video_id : string) (max_comments : Z)
    (f : feed (list thread_item)) :
  (∃ r, get_top_comments_by_likes video_id max_comments f = Return r)
  ↔ error_has_reason video_id max_comments f.
Proof.
  rewrite get_top_comments_unfold. unfold error_has_reason. simpl.
  destruct (loop_error _ _ _) as [[| | | |reason]|]; split;
    try (intros [r Hr]; discriminate Hr);
    try (intros H; by destruct (H _ eq_refl)).
  - intros _ e [= <-]. by eexists.
  - intros _. by eexists.
  - intros _ e [=].
  - intros _. by eexists.
Qed.

Lemma ranker_candidates_of (video_id : string) (max_comments : Z)
    (f : feed (list thread_item)) :
  Forall (λ c, Comment.video_id c = video_id) (candidates video_id max_comments f).
Proof.
  unfold candidates.
  destruct (comments_loop_prefix video_id max_comments [] 0 None f)
    as (pages & _ & ->).
  apply gathered_video_id.
Qed.

Section OrchestratorProperties.
Variable top_comments_count : Z.
Variable feeds : nat → feed (list thread_item).

#[local] Abbreviation ranked := (get_top_comments_by_likes).

(** What the loop appends for the videos still to do. *)
Lemma extract_loop_spec todo i acc res :
  extract_loop top_comments_count feeds i todo acc = Return res →
  ∃ news,
    videos res = videos acc ++ news
    ∧ video_info_of <$> news = todo
    ∧ (∀ k r, news !! k = Some r →
         ranked (Video.video_id (video_info_of r)) top_comments_count (feeds (i + k)%nat)
         = Return (top_comments r)
         ∧ comments_extracted r = Z.of_nat (length (top_comments r)))
    ∧ total_videos_processed (info res)
      = total_videos_processed (info acc) + Z.of_nat (length todo)
    ∧ videos_with_comments (info res)
      = videos_with_comments (info acc)
        + Z.of_nat (length (filter (λ r, top_comments r ≠ []) news))
    ∧ extraction_date (info res) = extraction_date (info acc)
    ∧ top_comments_per_video (info res) = top_comments_per_video (info acc).
Proof.
  revert i acc.
  induction todo as [|video todo IH]; intros i acc; simpl.
  - intros [= <-]. exists []. rewrite app_nil_r. repeat split; try done; simpl; lia.
  - destruct (ranked (Video.video_id video) top_comments_count (feeds i))
      as [top|] eqn:Htop; [|done].
    simpl. intros Hres. apply IH in Hres as (news & Hv & Hinfo & Hk & Ht & Hw & Hd & Hn).
    simpl in *.
    exists (mkVideoResult video top (Z.of_nat (length top)) :: news).
    split; [by rewrite Hv, <- app_assoc|].
    split; [by rewrite <- Hinfo|].
    split; [|split; [lia|split; [|done]]].
    + intros [|k] r; simpl.
      * intros [= <-]. simpl. by rewrite Nat.add_0_r.
      * intros Hr. rewrite Nat.add_succ_r. by apply (Hk k r).
    + rewrite Hw, filter_cons. simpl.
      destruct (decide (top ≠ [])) as [Hne|He].
      * rewrite bool_decide_true by done. simpl. lia.
      * rewrite bool_decide_false by done. simpl. lia.
Qed.

Lemma extract_loop_returns_iff todo i acc :
  (∃ res, extract_loop top_comments_count feeds i todo acc = Return res)
  ↔ ∀ k v, todo !! k = Some v →
           error_has_reason (Video.video_id v) top_comments_count (feeds (i + k)%nat).
Proof.
  revert i acc.
  induction todo as [|video todo IH]; intros i acc; simpl.
  - split; [by intros _ k v ?|]. intros _. by eexists.
  - split.
    + intros [res Hres] [|k] v; simpl.
      * intros [= <-]. rewrite Nat.add_0_r. apply get_top_comments_returns_iff.
        destruct (ranked _ _ _) as [top|]; [by eexists|done].
      * intros Hv. rewrite Nat.add_succ_r.
        destruct (ranked _ _ _) as [top|]; [|done]. simpl in Hres.
        eapply (proj1 (IH (S i) _)); [by eexists|done].
    + intros H.
      pose proof (H O video eq_refl) as H0. rewrite Nat.add_0_r in H0.
      apply get_top_comments_returns_iff in H0 as [top ->]. simpl.
      apply IH. intros k v Hv.
      replace (S i + k)%nat with (i + S k)%nat by lia. by apply (H (S k)).
Qed.

End OrchestratorProperties.

(** X4: when the Orchestrator returns a report, the report has one entry
    per video, in the order given and with the video record unchanged;
    each entry holds what the Comment Ranker returned for that video on
    its own feed, with [comments_extracted] the number of those comments;
    the processed counter is the number of videos, the with-comments
    counter the number of entries with a non-empty comment list, the
    requested count and the date are as passed in. *)
Theorem orchestrator_report (now : PyDate.datetime)
    (feeds : nat → feed (list thread_item)) (found : list Video.t)
    (top_comments_count : Z) (res : results) :
  extract_top_comments_from_videos now feeds found top_comments_count = Return res →
  video_info_of <$> videos res = found
  ∧ (∀ k r, videos res !! k = Some r →
       get_top_comments_by_likes (Video.video_id (video_info_of r))
         top_comments_count (feeds k) = Return (top_comments r)
       ∧ comments_extracted r = Z.of_nat (length (top_comments r)))
  ∧ total_videos_processed (info res) = Z.of_nat (length found)
  ∧ videos_with_comments (info res)
    = Z.of_nat (length (filter (λ r, top_comments r ≠ []) (videos res)))
  ∧ extraction_date (info res) = strftime_seconds now
  ∧ top_comments_per_video (info res) = top_comments_count.
Proof.
  intros Hres. apply extract_loop_spec in Hres
    as (news & Hv & Hinfo & Hk & Ht & Hw & Hd & Hn).
  simpl in *. rewrite Hv. repeat split; try done; try lia.
  - by apply (Hk k r).
  - by apply (Hk k r).
Qed.

Lemma orchestrator_report_witness :
  ∃ res,
    extract_top_comments_from_videos sample_now demo_threads
      [sample_video; sample_video] 3 = Return res
    ∧ total_videos_processed (info res) = 2
    ∧ videos_with_comments (info res) = 2.
Proof.
  eexists. split; [reflexivity|].
  destruct (orchestrator_report sample_now demo_threads
              [sample_video; sample_video] 3 _ eq_refl)
    as (_ & _ & Ht & Hw & _).
  split; [exact Ht | exact Hw].
Defined.

(** X5: for a requested count of at least 0, every entry of a report the
    Orchestrator returns holds at most that many comments, sorted by like
    count in descending order, and every one of them carries the
    identifier of the entry's video. *)
Theorem orchestrator_entries (now : PyDate.datetime)
    (feeds : nat → feed (list thread_item)) (found : list Video.t)
    (top_comments_count : Z) (res : results) :
  0 ≤ top_comments_count →
  extract_top_comments_from_videos now feeds found top_comments_count = Return res →
  Forall (λ r,
            Z.of_nat (length (top_comments r)) ≤ top_comments_count
            ∧ sorted_desc Comment.like_count (top_comments r)
            ∧ Forall (λ c, Comment.video_id c = Video.video_id (video_info_of r))
                     (top_comments r))
         (videos res).
Proof.
  intros HN Hres. apply extract_loop_spec in Hres as (news & Hv & _ & Hk & _).
  simpl in Hv. rewrite Hv. apply Forall_lookup. intros k r Hr.
  destruct (Hk k r Hr) as [Htop _].
  apply get_top_comments_return in Htop. rewrite slice_to_nonneg in Htop by done.
  rewrite Htop. split; [rewrite length_take; lia|]. split.
  - apply sorted_desc_take, sort_desc_sorted.
  - apply Forall_take. rewrite sort_desc_perm. apply ranker_candidates_of.
Qed.

Lemma orchestrator_entries_witness :
  ∃ res,
    extract_top_comments_from_videos sample_now demo_threads
      [sample_video; sample_video] 3 = Return res
    ∧ Forall (λ r, Z.of_nat (length (top_comments r)) ≤ 3) (videos res).
Proof.
  eexists. split; [reflexivity|].
  eapply Forall_impl;
    [exact (orchestrator_entries sample_now demo_threads
              [sample_video; sample_video] 3 _ ltac:(lia) eq_refl)|].
  by intros r (H & _).
Defined.

(** X6: the Orchestrator returns a report exactly when, for every video,
    the comment loop ends without an error or with an error that carries a
    reason code; a single error body without one makes the whole
    extraction raise, and the entries of the videos before it are lost. *)
Theorem orchestrator_returns_iff (now : PyDate.datetime)
    (feeds : nat → feed (list thread_item)) (found : list Video.t)
    (top_comments_count : Z) :
  (∃ res, extract_top_comments_from_videos now feeds found top_comments_count
          = Return res)
  ↔ ∀ k v, found !! k = Some v →
           error_has_reason (Video.video_id v) top_comments_count (feeds k).
Proof. apply extract_loop_returns_iff. Qed.

Lemma orchestrator_returns_iff_witness :
  ∃ res, extract_top_comments_from_videos sample_now demo_threads
           [sample_video; sample_video] 3 = Return res.
Proof.
  apply orchestrator_returns_iff.
  intros [|[|k]] v Hv e He; vm_compute in He; discriminate.
Defined.

Lemma orchestrator_raises_on_bad_body :
  extract_top_comments_from_videos sample_now broken_threads
    [sample_video; sample_video] 3 = Raise ValueError.
Proof. reflexivity. Qed.

(** ** More on the Video Search Aggregator *)

Section SearchLoop.
Variable keyword : string.
Variable max_results : Z.
Variables published_after published_before : option string.

#[local] Abbreviation sloop :=
  (search_loop keyword max_results published_after published_before).

(** Pages that succeed and carry a token are appended, and the loop goes
    on with what the platform serves next. *)
Lemma search_loop_chain_gen pre videos tok f :
  Forall good_page pre →
  (∀ k, (k < length pre)%nat →
        Z.of_nat (length videos + length (records (take k pre.*1))) < max_results) →
  (sloop videos tok (chain pre f)).1
  = (sloop (videos ++ records pre.*1) (last_token tok pre) f).1
  ∧ length (sloop videos tok (chain pre f)).2
    = (length pre + length (sloop (videos ++ records pre.*1) (last_token tok pre) f).2)%nat.
Proof.
  revert videos tok.
  induction pre as [|[p t] pre IH]; intros videos tok Hgood Hlen.
  - change (records [].*1) with (@nil Video.t). by rewrite app_nil_r.
  - apply Forall_cons in Hgood as [[Htok [vs Hvs]] Hgood]. simpl in Htok, Hvs.
    change (((p, t) :: pre).*1) with (p :: pre.*1) in *.
    rewrite (records_cons _ _ _ Hvs).
    pose proof (Hlen O ltac:(simpl; lia)) as H0.
    change (records (take 0 (p :: pre.*1))) with (@nil Video.t) in H0.
    simpl in H0. rewrite Nat.add_0_r in H0.
    assert (last_token tok ((p, t) :: pre) = last_token (Some t) pre) as ->.
    { unfold last_token. rewrite last_cons. by destruct (last pre). }
    simpl chain. simpl sloop.
    destruct (Z.ltb_spec (Z.of_nat (length videos)) max_results); [|lia].
    rewrite Hvs. destruct t as [|c t]; [done|].
    specialize (IH (videos ++ vs) (Some (String c t)) Hgood).
    destruct (sloop (videos ++ vs) _ (chain pre f)) as [out sent]; simpl.
    destruct IH as [H1 H2].
    { intros k Hk. specialize (Hlen (S k) ltac:(simpl; lia)).
      change (take (S k) (p :: pre.*1)) with (p :: take k pre.*1) in Hlen.
      rewrite (records_cons _ _ _ Hvs) in Hlen. rewrite !length_app in *. lia. }
    cbn [fst snd] in H1, H2. rewrite app_assoc. by rewrite H1, H2.
Qed.


End SearchLoop.

(** X7: with a maximum of 0 or less the Aggregator sends no request and
    returns the empty list; and once the pages fetched hold the maximum or
    more, it asks for nothing further: the result is the view-count sort
    of those pages, and one request per page was sent, whatever the
    platform would have served next. *)
Theorem search_stops_at_maximum (keyword : string) (max_results : Z)
    (published_after published_before : option string)
    (pre : list (search_page * string)) (p : search_page) (t : string)
    (f : feed search_page) :
  (max_results ≤ 0 →
   search_videos_by_keyword keyword max_results published_after published_before f = []
   ∧ search_requests keyword max_results published_after published_before f = [])
  ∧ (Forall good_page (pre ++ [(p, t)]) →
     Z.of_nat (length (records pre.*1)) < max_results →
     max_results ≤ Z.of_nat (length (records (pre ++ [(p, t)]).*1)) →
     search_videos_by_keyword keyword max_results published_after published_before
       (chain (pre ++ [(p, t)]) f)
     = sort_desc Video.view_count (records (pre ++ [(p, t)]).*1)
     ∧ length (search_requests keyword max_results published_after published_before
                 (chain (pre ++ [(p, t)]) f))
       = S (length pre)).
Proof.
  split.
  - intros Hmax. unfold search_videos_by_keyword, search_requests.
    by rewrite search_loop_done by (simpl; lia).
  - intros Hgood Hlt Hge. unfold search_videos_by_keyword, search_requests.
    destruct (search_loop_chain_gen keyword max_results published_after
                published_before (pre ++ [(p, t)]) [] None f Hgood) as [-> ->].
    + intros k Hk. rewrite length_app in Hk. simpl in *.
      rewrite fmap_app, take_app_le by (rewrite length_fmap; lia).
      assert (length (records (take k pre.*1)) ≤ length (records pre.*1))%nat; [|lia].
      rewrite <- (take_drop k pre.*1) at 2. unfold records.
      rewrite fmap_app, concat_app, length_app. lia.
    + rewrite search_loop_done by (simpl; lia). simpl.
      split; [done|]. rewrite length_app. simpl. lia.
Qed.

Lemma search_stops_at_maximum_witness :
  search_videos_by_keyword "demo" 2 None None
    (chain ([] ++ [(sample_page, "CAUQAA")]) long_tail)
  = sort_desc Video.view_count (records ([] ++ [(sample_page, "CAUQAA")]).*1)
  ∧ length (search_requests "demo" 2 None None
              (chain ([] ++ [(sample_page, "CAUQAA")]) long_tail)) = 1%nat.
Proof.
  apply (proj2 (search_stops_at_maximum "demo" 2 None None []
                  sample_page "CAUQAA" long_tail)).
  - repeat constructor. by eexists.
  - vm_compute. reflexivity.
  - vm_compute. discriminate.
Defined.



Lemma stats_map_lookup (l : list stats_item) (k : string) :
  stats_map l !! k = last (filter (λ v, stats_id v = k) l).
Proof.
  unfold stats_map. induction l as [|x l IH] using rev_ind; [done|].
  rewrite foldl_snoc, filter_app, lookup_insert.
  rewrite filter_cons, filter_nil.
  destruct (decide (stats_id x = k)) as [Hk|Hk].
  - by rewrite last_snoc.
  - by rewrite app_nil_r.
Qed.

(** X9: a page that is appended gives one record per search item, in the
    order of the items; the record has the item's identifier and its six
    snippet fields (title, channel title, channel id, publication date,
    description, thumbnail), each under its own key; nothing is merged or
    dropped.  The three counts of a record are those of the last
    statistics item that has the video's identifier, and 0 where the
    statistics have no such item or the item lacks the count. *)
Theorem page_records_join (p : search_page) (vs : list Video.t) :
  page_videos p = Ok vs →
  length vs = length (items p)
  ∧ ∀ k item,
      items p !! k = Some item →
      ∃ st,
        stats_response p = Ok st
        ∧ vs !! k
          = Some (Video.mk (videoId item) (snippet_title item)
                    (snippet_channelTitle item) (snippet_channelId item)
                    (snippet_publishedAt item) (snippet_description item)
                    (snippet_thumbnail item)
                    (stat_of st (videoId item) viewCount)
                    (stat_of st (videoId item) likeCount)
                    (stat_of st (videoId item) commentCount))
        ∧ (Forall (λ s, stats_id s ≠ videoId item) st →
           ∀ field, stat_of st (videoId item) field = 0).
Proof.
  unfold page_videos. destruct (items p) as [|i0 its] eqn:E.
  { intros [= <-]. split; [done|]. by intros k item ?. }
  destruct (stats_response p) as [st|]; [|done]. intros [= <-].
  change (video_info (stats_map st) i0
          :: list_fmap _ _ (video_info (stats_map st)) its)
    with (video_info (stats_map st) <$> i0 :: its).
  split; [by rewrite length_fmap|].
  intros k item Hk. exists st. split; [done|]. split.
  - rewrite list_lookup_fmap, Hk. simpl. unfold video_info, count_of, stat_of.
    by rewrite stats_map_lookup.
  - intros Hno field. unfold stat_of.
    assert (filter (λ v, stats_id v = videoId item) st = []) as ->; [|done].
    induction Hno as [|s st' Hs Hno IH]; [done|].
    rewrite filter_cons. by destruct (decide (stats_id s = videoId item)).
Qed.

Lemma page_records_join_witness :
  page_videos described_page
  = Ok [ Video.mk "aaaaaaaaaaa" "one" "ch1" "UC1" "2024-01-01T00:00:00Z" "d1" "t1"
           70 0 2;
         Video.mk "bbbbbbbbbbb" "two" "ch2" "UC2" "2024-01-02T00:00:00Z" "d2" "t2"
           0 0 0 ]
  ∧ ∃ st,
      stats_response described_page = Ok st
      ∧ [ Video.mk "aaaaaaaaaaa" "one" "ch1" "UC1" "2024-01-01T00:00:00Z" "d1" "t1"
            70 0 2;
          Video.mk "bbbbbbbbbbb" "two" "ch2" "UC2" "2024-01-02T00:00:00Z" "d2" "t2"
            0 0 0 ] !! 0%nat
        = Some (Video.mk "aaaaaaaaaaa" "one" "ch1" "UC1" "2024-01-01T00:00:00Z"
                  "d1" "t1" (stat_of st "aaaaaaaaaaa" viewCount)
                  (stat_of st "aaaaaaaaaaa" likeCount)
                  (stat_of st "aaaaaaaaaaa" commentCount)).
Proof.
  split; [reflexivity|].
  destruct (page_records_join described_page _ eq_refl) as [_ H].
  destruct (H 0%nat _ eq_refl) as (st & Hst & Hv & _).
  exists st. split; [exact Hst | exact Hv].
Defined.

Lemma insert_desc_filter {A : Type} (key : A → Z) (k : Z) (x : A) (l : list A) :
  filter (λ y, key y = k) (insert_desc key x l)
  = filter (λ y, key y = k) (x :: l).
Proof.
  induction l as [|y l IH]; simpl; [done|].
  destruct (Z.ltb_spec (key x) (key y)) as [Hlt|Hge]; [|done].
  rewrite !filter_cons in *.
  destruct (decide (key y = k)) as [Hy|Hy], (decide (key x = k)) as [Hx|Hx];
    try lia; by rewrite IH.
Qed.

Lemma sort_desc_stable {A : Type} (key : A → Z) (k : Z) (l : list A) :
  filter (λ y, key y = k) (sort_desc key l) = filter (λ y, key y = k) l.
Proof.
  induction l as [|x l IH]; [done|].
  change (sort_desc key (x :: l)) with (insert_desc key x (sort_desc key l)).
  rewrite insert_desc_filter, !filter_cons, IH. done.
Qed.

(** X10: sorting does not reorder ties: the videos with one and the same
    view count come back in the order the pages served them, and the
    comments with one and the same like count, before the cut to N, in the
    order their threads were served. *)
Theorem ties_keep_served_order (keyword : string) (max_results : Z)
    (published_after published_before : option string) (f : feed search_page)
    (video_id : string) (max_comments : Z) (g : feed (list thread_item))
    (n : Z) :
  filter (λ v, Video.view_count v = n)
    (search_videos_by_keyword keyword max_results published_after published_before f)
  = filter (λ v, Video.view_count v = n)
      (search_loop keyword max_results published_after published_before [] None f).1
  ∧ filter (λ c, Comment.like_count c = n)
      (sort_desc Comment.like_count (candidates video_id max_comments g))
    = filter (λ c, Comment.like_count c = n) (candidates video_id max_comments g).
Proof. split; apply sort_desc_stable. Qed.

(** ** Parsing and writing dates *)

Lemma digit_val_digit (k : Z) : PyDate.digit_val (PyDate.digit k) = Some (k mod 10).
Proof.
  unfold PyDate.digit_val, PyDate.digit.
  pose proof (Z.mod_pos_bound k 10 ltac:(lia)) as Hk.
  rewrite nat_ascii_embedding by lia. rewrite Z2Nat.id by lia.
  destruct (Z.leb_spec 48 (48 + k mod 10)), (Z.leb_spec (48 + k mod 10) 57);
    simpl; try lia. f_equal. lia.
Qed.

Lemma digit_code (k : Z) :
  nat_of_ascii (PyDate.digit k) = Z.to_nat (48 + k mod 10).
Proof.
  unfold PyDate.digit.
  pose proof (Z.mod_pos_bound k 10 ltac:(lia)) as Hk.
  apply nat_ascii_embedding. lia.
Qed.

Lemma digit_not (c : ascii) (k : Z) :
  (nat_of_ascii c < 48)%nat → PyDate.digit k ≠ c.
Proof.
  intros Hc E. apply (f_equal nat_of_ascii) in E. rewrite digit_code in E.
  pose proof (Z.mod_pos_bound k 10 ltac:(lia)). lia.
Qed.

Lemma digit_val_range (c : ascii) (d : Z) :
  PyDate.digit_val c = Some d → 0 ≤ d ≤ 9.
Proof.
  unfold PyDate.digit_val.
  destruct (_ && _) eqn:E; [|done]. intros [= <-].
  apply andb_true_iff in E as [?%Z.leb_le ?%Z.leb_le]. lia.
Qed.

Lemma in_range_spec (lo hi v w : Z) :
  PyDate.in_range lo hi v = Some w → w = v ∧ lo ≤ v ≤ hi.
Proof.
  unfold PyDate.in_range.
  destruct (_ && _) eqn:E; [|done]. intros [= <-].
  apply andb_true_iff in E as [?%Z.leb_le ?%Z.leb_le]. lia.
Qed.

Lemma parse_field_range (space_pad : bool) (hi : Z) (s : string) (v : Z) :
  9 ≤ hi → PyDate.parse_field space_pad hi s = Some v → 1 ≤ v ≤ hi.
Proof.
  intros Hhi. unfold PyDate.parse_field.
  destruct s as [|a [|b [|c s]]]; try done.
  - destruct (PyDate.digit_val a) as [d|]; [|done]. simpl.
    intros [-> ?]%in_range_spec. lia.
  - destruct (space_pad && bool_decide (a = " "%char)).
    + destruct (PyDate.digit_val b) as [d|]; [|done]. simpl.
      intros [-> ?]%in_range_spec. lia.
    + destruct (PyDate.digit_val a) as [da|]; [|done]. simpl.
      destruct (PyDate.digit_val b) as [db|]; [|done]. simpl.
      intros [-> ?]%in_range_spec. lia.
Qed.

Lemma parse_field_digits2 (space_pad : bool) (hi v : Z) :
  1 ≤ v ≤ hi → hi ≤ 99 →
  PyDate.parse_field space_pad hi (PyDate.digits2 v) = Some v.
Proof.
  intros Hv Hhi. unfold PyDate.parse_field, PyDate.digits2.
  assert (bool_decide (PyDate.digit (v / 10) = " "%char) = false) as ->.
  { apply bool_decide_eq_false. apply digit_not. vm_compute. lia. }
  rewrite andb_false_r, !digit_val_digit. simpl.
  unfold PyDate.in_range.
  assert (10 * ((v / 10) mod 10) + v mod 10 = v) as ->.
  { Z.div_mod_to_equations. lia. }
  by destruct (Z.leb_spec 1 v), (Z.leb_spec v hi); try lia.
Qed.

Lemma days_in_month_le (y m : Z) :
  1 ≤ m ≤ 12 → 28 ≤ PyDate.days_in_month y m ≤ 31.
Proof.
  intros Hm. unfold PyDate.days_in_month, PyDate.table.
  assert (m = 1 ∨ m = 2 ∨ m = 3 ∨ m = 4 ∨ m = 5 ∨ m = 6 ∨ m = 7 ∨ m = 8
          ∨ m = 9 ∨ m = 10 ∨ m = 11 ∨ m = 12) as Hcases by lia.
  destruct (PyDate.is_leap y);
    repeat (destruct Hcases as [->|Hcases]; [simpl; lia|]); subst; simpl; lia.
Qed.

Lemma strptime_unfold (y1 y2 y3 y4 : ascii) (rest : string) :
  PyDate.strptime_ymd
    (String y1 (String y2 (String y3 (String y4 (String "-"%char rest)))))
  = match PyDate.digit_val y1, PyDate.digit_val y2, PyDate.digit_val y3,
          PyDate.digit_val y4, PyStr.cut "-" rest with
    | Some a, Some b, Some c, Some d, Some (ms, ds) =>
        let y := 1000 * a + 100 * b + 10 * c + d in
        match PyDate.parse_field false 12 ms, PyDate.parse_field true 31 ds with
        | Some m, Some dd =>
            if (1 <=? y) && (dd <=? PyDate.days_in_month y m)
            then Return (PyDate.mkDatetime y m dd 0 0 0)
            else Raise ValueError
        | _, _ => Raise ValueError
        end
    | _, _, _, _, _ => Raise ValueError
    end.
Proof. reflexivity. Qed.

(** From the year 1000 on, what [strftime] writes is what [strptime]
    reads: before, the year has fewer than the four digits [%Y] asks for. *)
Lemma strptime_strftime (t : PyDate.datetime) :
  valid_date t → 1000 ≤ PyDate.year t →
  PyDate.strptime_ymd (PyDate.strftime_ymd t) = Return (midnight t).
Proof.
  intros (Hy & Hm & Hd) Hy4. destruct t as [y m d hh mm ss].
  unfold PyDate.strftime_ymd, midnight, PyDate.year_digits.
  cbn [PyDate.year PyDate.month PyDate.day] in *.
  rewrite (proj2 (Z.leb_le 1000 y)) by done.
  change (PyDate.digits4 y +:+ "-" +:+ PyDate.digits2 m +:+ "-" +:+ PyDate.digits2 d)
    with (String (PyDate.digit (y / 1000)) (String (PyDate.digit (y / 100))
            (String (PyDate.digit (y / 10)) (String (PyDate.digit y)
               (String "-"%char (PyDate.digits2 m +:+ "-" +:+ PyDate.digits2 d)))))).
  rewrite strptime_unfold, !digit_val_digit.
  assert (PyStr.cut "-" (PyDate.digits2 m +:+ "-" +:+ PyDate.digits2 d)
          = Some (PyDate.digits2 m, PyDate.digits2 d)) as ->.
  { unfold PyDate.digits2.
    change (String (PyDate.digit (m / 10)) (String (PyDate.digit m) "") +:+ "-" +:+ ?x)
      with (String (PyDate.digit (m / 10)) (String (PyDate.digit m) (String "-"%char x))).
    assert (∀ k s, String.prefix "-" (String (PyDate.digit k) s) = false) as Hno.
    { intros k s. apply not_true_is_false. intros [u Hu]%prefix_app.
      rewrite app_cons in Hu. injection Hu as Hk _.
      by apply digit_not in Hk; [|vm_compute; lia]. }
    rewrite cut_unfold, Hno, cut_unfold, Hno, cut_unfold. done. }
  pose proof (days_in_month_le y m Hm) as Hdim.
  rewrite !parse_field_digits2 by lia. cbv zeta.
  assert (1000 * ((y / 1000) mod 10) + 100 * ((y / 100) mod 10)
          + 10 * ((y / 10) mod 10) + y mod 10 = y) as ->.
  { Z.div_mod_to_equations. lia. }
  rewrite (proj2 (Z.leb_le 1 y)), (proj2 (Z.leb_le d _)) by lia. done.
Qed.

(** A date that [strptime] accepts exists and has time 00:00:00; any
    other string is rejected with a [ValueError]. *)
Lemma strptime_outcomes (s : string) :
  (∀ t, PyDate.strptime_ymd s = Return t →
        valid_date t ∧ PyDate.hour t = 0 ∧ PyDate.minute t = 0 ∧ PyDate.second t = 0)
  ∧ (∀ e, PyDate.strptime_ymd s = Raise e → e = ValueError).
Proof.
  unfold PyDate.strptime_ymd.
  destruct s as [|y1 [|y2 [|y3 [|y4 [|dash rest]]]]];
    try (split; intros ? [=]; done).
  destruct (decide (dash = "-"%char)) as [->|Hdash];
    [|split; intros ?; destruct dash as [[] [] [] [] [] [] [] []];
        intros [=]; done].
  destruct (PyDate.digit_val y1) as [a|] eqn:Ha; [|split; intros ? [=]; done].
  destruct (PyDate.digit_val y2) as [b|] eqn:Hb; [|split; intros ? [=]; done].
  destruct (PyDate.digit_val y3) as [c|] eqn:Hc; [|split; intros ? [=]; done].
  destruct (PyDate.digit_val y4) as [d|] eqn:Hd; [|split; intros ? [=]; done].
  destruct (PyStr.cut "-" rest) as [[ms ds]|]; [|split; intros ? [=]; done].
  destruct (PyDate.parse_field false 12 ms) as [m|] eqn:Hm;
    [|split; intros ? [=]; done].
  destruct (PyDate.parse_field true 31 ds) as [dd|] eqn:Hdd;
    [|split; intros ? [=]; done].
  apply digit_val_range in Ha, Hb, Hc, Hd.
  apply parse_field_range in Hm, Hdd; try lia.
  destruct (Z.leb_spec 1 (1000 * a + 100 * b + 10 * c + d)),
           (Z.leb_spec dd (PyDate.days_in_month (1000 * a + 100 * b + 10 * c + d) m));
    simpl; split; intros ? [=]; subst; try done.
  unfold valid_date. simpl. repeat split; lia.
Qed.

(** An absolute date the script wrote itself wins over the offset of its
    side and comes back as it is. *)
Lemma date_bound_absolute (now : PyDate.datetime) (days : option Z)
    (v : PyDate.datetime) (suffix : string) :
  valid_date v → 1000 ≤ PyDate.year v →
  date_bound now days (Some (PyDate.strftime_ymd v)) suffix
  = Return (Some (PyDate.strftime_ymd v +:+ suffix)).
Proof.
  intros Hv Hv4. unfold date_bound.
  assert (PyStr.truthy (Some (PyDate.strftime_ymd v)) = true) as ->.
  { unfold PyDate.strftime_ymd, PyDate.year_digits.
    by rewrite (proj2 (Z.leb_le 1000 _)). }
  change (default "" (Some (PyDate.strftime_ymd v)))
    with (PyDate.strftime_ymd v).
  by rewrite strptime_strftime.
Qed.

(** X11: when both sides are given as existing dates of the years 1000 to
    9999 in the form ['%Y-%m-%d'] writes, the range is those two strings
    followed by [T00:00:00Z] and [T23:59:59Z], whatever the relative
    offsets and the clock are: an absolute date overrides the offset of
    its side. *)
Theorem absolute_dates_override (now : PyDate.datetime)
    (days_ago_start days_ago_end : option Z) (t u : PyDate.datetime) :
  valid_date t → 1000 ≤ PyDate.year t →
  valid_date u → 1000 ≤ PyDate.year u →
  get_date_range_iso now days_ago_start days_ago_end
    (Some (PyDate.strftime_ymd t)) (Some (PyDate.strftime_ymd u))
  = Return (Some (PyDate.strftime_ymd t +:+ "T00:00:00Z"),
            Some (PyDate.strftime_ymd u +:+ "T23:59:59Z")).
Proof.
  intros Ht Ht4 Hu Hu4.
  unfold get_date_range_iso. by rewrite !date_bound_absolute.
Qed.

Lemma absolute_dates_override_witness :
  get_date_range_iso sample_now (Some 7) None
    (Some "2024-01-05") (Some "2024-03-10")
  = Return (Some "2024-01-05T00:00:00Z", Some "2024-03-10T23:59:59Z").
Proof.
  apply (absolute_dates_override sample_now (Some 7) None
           (PyDate.mkDatetime 2024 1 5 9 0 0) sample_now);
    unfold valid_date; simpl; vm_compute; repeat split; discriminate.
Defined.

Lemma date_bound_outcomes (now : PyDate.datetime) (days : option Z)
    (date : option string) (suffix : string) :
  (∀ e, date_bound now days date suffix = Raise e →
        (e = ValueError ∧ PyStr.truthy date = true)
        ∨ (e = OverflowError ∧ PyStr.truthy date = false))
  ∧ (∀ r, date_bound now days date suffix = Return r → PyStr.truthy date = true →
          ∃ t, valid_date t ∧ r = Some (PyDate.strftime_ymd t +:+ suffix)).
Proof.
  unfold date_bound. destruct (PyStr.truthy date).
  - destruct (strptime_outcomes (default "" date)) as [Hret Hraise].
    destruct (PyDate.strptime_ymd (default "" date)) as [t|e0]; simpl; split.
    + by intros e [=].
    + intros r [= <-] _. exists t. split; [|done]. by destruct (Hret t eq_refl).
    + intros e [= <-]. left. split; [|done]. by apply Hraise.
    + by intros r [=].
  - split; [|by intros r _ [=]].
    destruct (truthy_int days); [|by intros e [=]].
    unfold PyDate.sub_days.
    destruct (_ <=? _); [|intros e [= <-]; by right].
    destruct (_ && _); [|intros e [= <-]; by right].
    destruct (PyDate.ord2ymd _) as [[y m] d]. by intros e [=].
Qed.

(** X12: the Date Range Builder raises nothing but [ValueError] and
    [OverflowError]; a [ValueError] never comes without an absolute date,
    and a start date that does not parse gives one whatever the other
    arguments are; and a bound that comes from an absolute date is the
    ['%Y-%m-%d'] form of an existing date (years 1 to 9999, the day within
    the month) followed by the time of its side. *)
Theorem date_range_errors (now : PyDate.datetime)
    (days_ago_start days_ago_end : option Z) (start_date end_date : option string) :
  (∀ e, get_date_range_iso now days_ago_start days_ago_end start_date end_date
        = Raise e → e = ValueError ∨ e = OverflowError)
  ∧ (PyStr.truthy start_date = false → PyStr.truthy end_date = false →
     get_date_range_iso now days_ago_start days_ago_end start_date end_date
     ≠ Raise ValueError)
  ∧ (PyStr.truthy start_date = true →
     PyDate.strptime_ymd (default "" start_date) = Raise ValueError →
     get_date_range_iso now days_ago_start days_ago_end start_date end_date
     = Raise ValueError)
  ∧ (∀ a b,
       get_date_range_iso now days_ago_start days_ago_end start_date end_date
       = Return (a, b) →
       (PyStr.truthy start_date = true →
        ∃ t, valid_date t ∧ a = Some (PyDate.strftime_ymd t +:+ "T00:00:00Z"))
       ∧ (PyStr.truthy end_date = true →
          ∃ t, valid_date t ∧ b = Some (PyDate.strftime_ymd t +:+ "T23:59:59Z"))).
Proof.
  unfold get_date_range_iso.
  destruct (date_bound_outcomes now days_ago_start start_date "T00:00:00Z")
    as [Hsr Hsv].
  destruct (date_bound_outcomes now days_ago_end end_date "T23:59:59Z")
    as [Her Hev].
  split; [|split; [|split]].
  - intros e.
    destruct (date_bound now days_ago_start start_date "T00:00:00Z") as [a|e1];
      simpl; [|intros [= <-]; destruct (Hsr e1 eq_refl) as [[-> _]|[-> _]]; auto].
    destruct (date_bound now days_ago_end end_date "T23:59:59Z") as [b|e2];
      simpl; [done|]. intros [= <-].
    destruct (Her e2 eq_refl) as [[-> _]|[-> _]]; auto.
  - intros Hs He.
    destruct (date_bound now days_ago_start start_date "T00:00:00Z") as [a|e1];
      simpl; [|intros [= ->]; destruct (Hsr _ eq_refl) as [[_ ?]|[? _]]; congruence].
    destruct (date_bound now days_ago_end end_date "T23:59:59Z") as [b|e2];
      simpl; [done|]. intros [= ->].
    destruct (Her _ eq_refl) as [[_ ?]|[? _]]; congruence.
  - intros Hs Hparse. unfold date_bound. by rewrite Hs, Hparse.
  - intros a b.
    destruct (date_bound now days_ago_start start_date "T00:00:00Z") as [a'|e1];
      simpl; [|done].
    destruct (date_bound now days_ago_end end_date "T23:59:59Z") as [b'|e2];
      simpl; [|done]. intros [= <- <-]. split; intros Ht.
    + by apply Hsv.
    + by apply Hev.
Qed.

Lemma date_range_errors_witness :
  get_date_range_iso sample_now (Some 7) None (Some "2024-02-30") None
  = Raise ValueError.
Proof.
  destruct (date_range_errors sample_now (Some 7) None (Some "2024-02-30") None)
    as (_ & _ & H & _).
  apply H; reflexivity.
Defined.

(** ** More on the Report Exporter *)

Lemma rev_app_acc (s acc : string) :
  String.rev_app s acc = String.rev s +:+ acc.
Proof.
  unfold String.rev. revert acc.
  induction s as [|a s IH]; intros acc; [done|]. simpl.
  rewrite (IH (String a acc)), (IH (String a "")).
  by rewrite app_assoc_str.
Qed.

Lemma rev_app_str (s t : string) :
  String.rev (s +:+ t) = String.rev t +:+ String.rev s.
Proof.
  induction s as [|a s IH]; [by rewrite app_empty_r|].
  rewrite app_cons. unfold String.rev at 1 3. simpl.
  rewrite !rev_app_acc, IH. by rewrite app_assoc_str.
Qed.

Lemma endswith_app (suffix s : string) : PyStr.endswith suffix (s +:+ suffix) = true.
Proof.
  unfold PyStr.endswith. rewrite rev_app_str. apply prefix_app. by eexists.
Qed.

Lemma excel_filename_xlsx (now : PyDate.datetime) (filename : option string) :
  PyStr.endswith ".xlsx" (excel_filename now filename) = true.
Proof.
  unfold excel_filename. destruct (PyStr.truthy filename); simpl.
  - destruct (PyStr.endswith ".xlsx" (default "" filename)) eqn:E; simpl; [done|].
    apply endswith_app.
  - rewrite <- app_assoc_str. apply endswith_app.
Qed.

Lemma save_to_excel_unfold (res : results)
    (excel_writer : gmap string workbook → string → workbook → write_outcome)
    (now : PyDate.datetime) (filename : option string) (fs : gmap string workbook) :
  ∃ rows over,
    detail_rows res (videos res) = Return rows
    ∧ overview_rows res (videos res) = Return over
    ∧ length rows = total_comments res
    ∧ save_to_excel res excel_writer now filename fs
      = match rows with
        | [] => Return (None, fs)
        | _ :: _ =>
            let book := mkWorkbook rows (summary_sheet res rows) over in
            match excel_writer fs (excel_filename now filename) book with
            | Saved =>
                Return (Some (excel_filename now filename),
                        <[excel_filename now filename := book]> fs)
            | WriteError e => Raise e
            end
        end.
Proof.
  destruct (detail_rows_length res (videos res)) as (rows & Hrows & Hlen); [done|].
  destruct (overview_rows_length res (videos res)) as (over & Hover & _); [done|].
  exists rows, over. unfold save_to_excel. rewrite Hrows, Hover.
  by repeat split.
Qed.



Section ExporterColumns.
Variable res : results.

Lemma comment_rows_columns video (i : Z) comments rows :
  comment_rows res video i comments = Return rows →
  detail_comment_columns <$> rows = comment_columns <$> comments
  ∧ Detail.Comment_Rank <$> rows = (λ k, i + Z.of_nat k) <$> seq 0 (length comments)
  ∧ detail_video_columns <$> rows
    = replicate (length comments) (video_columns video).
Proof.
  revert i rows. induction comments as [|c comments IH]; intros i rows H;
    simpl in H.
  - by simplify_eq.
  - destruct (rank_of res video) as [rank|]; [|done]. simpl in H.
    destruct (comment_rows res video (i + 1) comments) as [rows'|] eqn:E; [|done].
    simpl in H. simplify_eq.
    destruct (IH _ _ E) as (Hid & Hrank & Hvid).
    rewrite !fmap_cons, Hid, Hrank, Hvid.
    assert ((λ k, i + Z.of_nat k) <$> seq 0 (length (c :: comments))
            = i :: ((λ k, i + 1 + Z.of_nat k) <$> seq 0 (length comments))) as ->.
    { cbn [length seq]. rewrite fmap_cons, <- fmap_S_seq, <- list_fmap_compose.
      f_equal; [simpl; lia|]. apply list_fmap_ext. intros k j _. simpl. lia. }
    done.
Qed.

Lemma detail_rows_columns todo rows :
  detail_rows res todo = Return rows →
  detail_comment_columns <$> rows = comment_columns <$> concat (top_comments <$> todo)
  ∧ Detail.Comment_Rank <$> rows = comment_ranks todo
  ∧ detail_video_columns <$> rows = per_comment video_columns todo.
Proof.
  revert rows. induction todo as [|video todo IH]; intros rows H; simpl in H.
  - by simplify_eq.
  - destruct (comment_rows res video 1 (top_comments video)) as [here|] eqn:E;
      [|done]. simpl in H.
    destruct (detail_rows res todo) as [rows'|]; [|done]. simpl in H. simplify_eq.
    destruct (comment_rows_columns _ _ _ _ E) as (Hid & Hrank & Hvid).
    destruct (IH _ eq_refl) as (Hid' & Hrank' & Hvid').
    unfold comment_ranks, per_comment in *.
    rewrite !fmap_cons, !concat_cons, !fmap_app.
    by rewrite Hid, Hrank, Hvid, Hid', Hrank', Hvid'.
Qed.

Lemma overview_rows_columns todo rows :
  overview_rows res todo = Return rows →
  overview_columns <$> rows = overview_of <$> todo.
Proof.
  revert rows. induction todo as [|video todo IH]; intros rows H; simpl in H.
  - by simplify_eq.
  - destruct (rank_of res video) as [rank|]; [|done]. simpl in H.
    destruct (overview_rows res todo) as [rows'|]; [|done]. simpl in H.
    simplify_eq. rewrite !fmap_cons. by rewrite (IH _ eq_refl).
Qed.

End ExporterColumns.

(** X14: the workbook that is written lists, on the detail sheet, the
    comments of all videos in report order: the six comment columns of a
    row are those of the comment, the six video columns those of its
    video, and each video's comments are ranked 1, 2, ...; on the overview
    sheet the videos in report order, each with its identifier, title,
    channel, views, likes, comment count, publication date and number of
    comments extracted; and on the summary sheet the report's counters,
    with the number of detail rows as the total. *)
Theorem export_sheets (res : results)
    (excel_writer : gmap string workbook → string → workbook → write_outcome)
    (now : PyDate.datetime)
    (filename : option string) (fs fs' : gmap string workbook) (path : string) :
  save_to_excel res excel_writer now filename fs = Return (Some path, fs') →
  ∃ book,
    fs' !! path = Some book
    ∧ detail_comment_columns <$> Top_Comments book
      = comment_columns <$> concat (top_comments <$> videos res)
    ∧ detail_video_columns <$> Top_Comments book
      = per_comment video_columns (videos res)
    ∧ Detail.Comment_Rank <$> Top_Comments book = comment_ranks (videos res)
    ∧ overview_columns <$> Video_Overview book = overview_of <$> videos res
    ∧ Summary book
      = [ ("Total Videos Processed", IntCell (total_videos_processed (info res)));
          ("Videos with Comments", IntCell (videos_with_comments (info res)));
          ("Total Comments Extracted", IntCell (Z.of_nat (total_comments res)));
          ("Extraction Date", StrCell (extraction_date (info res)));
          ("Comments per Video", IntCell (top_comments_per_video (info res))) ].
Proof.
  destruct (save_to_excel_unfold res excel_writer now filename fs)
    as (rows & over & Hrows & Hover & Hlen & ->).
  destruct rows as [|row rows]; [done|]. cbv zeta.
  destruct (excel_writer _ _ _); [|done]. intros [= <- <-].
  eexists. split; [apply lookup_insert_eq|]. simpl.
  destruct (detail_rows_columns _ _ _ Hrows) as (H1 & H2 & H3).
  pose proof (overview_rows_columns _ _ _ Hover) as H4.
  repeat split; try done.
  unfold summary_sheet. by rewrite Hlen.
Qed.

Lemma export_sheets_witness :
  ∃ book,
    detail_comment_columns <$> Top_Comments book
    = [("c9", "ann", "first", 9, "2024-02-01T00:00:00Z", 4);
       ("c3", "bob", "second", 3, "2024-02-02T00:00:00Z", 0);
       ("d5", "cyd", "third", 5, "2024-02-03T00:00:00Z", 1)]
    ∧ detail_video_columns <$> Top_Comments book
      = [("aaaaaaaaaaa", "one", "ch1", 1000, 10, "2024-01-01T00:00:00Z");
         ("aaaaaaaaaaa", "one", "ch1", 1000, 10, "2024-01-01T00:00:00Z");
         ("bbbbbbbbbbb", "two", "ch2", 500, 20, "2024-01-02T00:00:00Z")]
    ∧ Detail.Comment_Rank <$> Top_Comments book = [1; 2; 1]
    ∧ overview_columns <$> Video_Overview book
      = [("aaaaaaaaaaa", "one", "ch1", 1000, 10, 7, "2024-01-01T00:00:00Z", 2);
         ("bbbbbbbbbbb", "two", "ch2", 500, 20, 8, "2024-01-02T00:00:00Z", 1)].
Proof.
  destruct (export_sheets two_videos writer_saves sample_now (Some "out") ∅ _ _
              eq_refl)
    as (book & _ & Hc & Hv & Hrank & Hover & _).
  exists book. split; [exact Hc|]. split; [exact Hv|].
  split; [exact Hrank | exact Hover].
Defined.

Section ExporterRanks.
Variable res : results.

Lemma rank_of_first_equal video :
  video ∈ videos res →
  ∃ i, rank_of res video = Return (Z.of_nat i + 1)
       ∧ videos res !! i = Some video
       ∧ ∀ j, (j < i)%nat → videos res !! j ≠ Some video.
Proof.
  intros Hin. destruct (list_index_elem video (videos res) Hin) as (i & Hi & Hl & Hf).
  exists i. unfold rank_of. by rewrite Hi.
Qed.

Lemma overview_rows_first_equal todo rows :
  todo ⊆ videos res →
  overview_rows res todo = Return rows →
  ∀ k video, todo !! k = Some video →
    ∃ row i, rows !! k = Some row ∧ Overview.Rank row = Z.of_nat i + 1
             ∧ videos res !! i = Some video
             ∧ ∀ j, (j < i)%nat → videos res !! j ≠ Some video.
Proof.
  revert rows. induction todo as [|v todo IH]; intros rows Hsub H; simpl in H.
  - by intros k video ?.
  - destruct (rank_of_first_equal v) as (i & Hrank & Hi & Hf).
    { apply Hsub. left. }
    rewrite Hrank in H. simpl in H.
    destruct (overview_rows res todo) as [rows'|]; [|done]. simpl in H.
    simplify_eq. intros [|k] video Hk; simpl in Hk.
    + simplify_eq. eexists _, i. by repeat split.
    + apply (IH rows'); [|done|done]. intros x Hx. apply Hsub. by right.
Qed.

Lemma comment_rows_point_back video (i : Z) comments rows :
  video ∈ videos res →
  comment_rows res video i comments = Return rows →
  Forall (λ row, ∃ k, Detail.Video_Rank row = Z.of_nat k + 1
                      ∧ videos res !! k = Some video
                      ∧ Detail.Video_ID row = Video.video_id (video_info_of video)
                      ∧ Detail.Video_Title row = Video.title (video_info_of video)
                      ∧ Detail.Video_Views row = Video.view_count (video_info_of video))
         rows.
Proof.
  intros Hin. destruct (rank_of_first_equal video Hin) as (k & Hrank & Hk & _).
  revert i rows. induction comments as [|c comments IH]; intros i rows H;
    simpl in H.
  - simplify_eq. constructor.
  - rewrite Hrank in H. simpl in H.
    destruct (comment_rows res video (i + 1) comments) as [rows'|] eqn:E; [|done].
    simpl in H. simplify_eq. constructor; [|by eapply IH].
    exists k. by repeat split.
Qed.

Lemma detail_rows_point_back todo rows :
  todo ⊆ videos res →
  detail_rows res todo = Return rows →
  Forall (λ row, ∃ k video, Detail.Video_Rank row = Z.of_nat k + 1
                      ∧ videos res !! k = Some video
                      ∧ Detail.Video_ID row = Video.video_id (video_info_of video)
                      ∧ Detail.Video_Title row = Video.title (video_info_of video)
                      ∧ Detail.Video_Views row = Video.view_count (video_info_of video))
         rows.
Proof.
  revert rows. induction todo as [|v todo IH]; intros rows Hsub H; simpl in H.
  - simplify_eq. constructor.
  - destruct (comment_rows res v 1 (top_comments v)) as [here|] eqn:E; [|done].
    simpl in H. destruct (detail_rows res todo) as [rows'|]; [|done].
    simpl in H. simplify_eq. apply Forall_app. split.
    + eapply Forall_impl; [eapply comment_rows_point_back; [|exact E]|].
      * apply Hsub. left.
      * intros row (k & ?). by exists k, v.
    + apply IH; [|done]. intros x Hx. apply Hsub. by right.
Qed.

End ExporterRanks.

(** X15: the rank the Exporter writes for the entry at position k of the
    report is one more than the position of the first entry equal to it:
    never more than k + 1, and equal to k + 1 exactly when no earlier entry
    is equal; and the rank on every detail row is the position of an entry
    that has the row's video identifier, title and view count. *)
Theorem export_rank_first_equal (res : results)
    (excel_writer : gmap string workbook → string → workbook → write_outcome)
    (now : PyDate.datetime)
    (filename : option string) (fs fs' : gmap string workbook) (path : string) :
  save_to_excel res excel_writer now filename fs = Return (Some path, fs') →
  ∃ book,
    fs' !! path = Some book
    ∧ (∀ k video, videos res !! k = Some video →
         ∃ row i,
           Video_Overview book !! k = Some row
           ∧ Overview.Rank row = Z.of_nat i + 1
           ∧ (i ≤ k)%nat
           ∧ videos res !! i = Some video
           ∧ (∀ j, (j < i)%nat → videos res !! j ≠ Some video))
    ∧ Forall (λ row,
                ∃ k video,
                  Detail.Video_Rank row = Z.of_nat k + 1
                  ∧ videos res !! k = Some video
                  ∧ Detail.Video_ID row = Video.video_id (video_info_of video)
                  ∧ Detail.Video_Title row = Video.title (video_info_of video)
                  ∧ Detail.Video_Views row = Video.view_count (video_info_of video))
             (Top_Comments book).
Proof.
  destruct (save_to_excel_unfold res excel_writer now filename fs)
    as (rows & over & Hrows & Hover & Hlen & ->).
  destruct rows as [|row0 rows]; [done|]. cbv zeta.
  destruct (excel_writer _ _ _); [|done]. intros [= <- <-].
  eexists. split; [apply lookup_insert_eq|]. simpl. split.
  - intros k video Hk.
    destruct (overview_rows_first_equal res (videos res) over ltac:(done) Hover
                k video Hk) as (row & i & Hrow & Hrank & Hi & Hfirst).
    exists row, i. repeat split; try done.
    destruct (decide (i ≤ k)%nat) as [|Hgt]; [done|].
    exfalso. apply (Hfirst k); [lia|done].
  - by apply (detail_rows_point_back res (videos res)).
Qed.

Lemma export_rank_first_equal_witness :
  ∃ book,
    (<["out.xlsx" := book]> (∅ : gmap string workbook)) !! "out.xlsx" = Some book
    ∧ ∃ row i, Video_Overview book !! 1%nat = Some row
               ∧ Overview.Rank row = Z.of_nat i + 1 ∧ (i ≤ 1)%nat.
Proof.
  destruct (export_rank_first_equal twice_listed writer_saves sample_now (Some "out")
              ∅ _ _ eq_refl)
    as (book & Hbook & Hover & _).
  destruct (Hover 1%nat sample_result eq_refl) as (row & i & Hrow & Hrank & Hle & _).
  exists book. split; [by rewrite lookup_insert_eq|]. by exists row, i.
Defined.

Lemma total_comments_zero (l : list video_result) :
  sum_list ((λ v, length (top_comments v)) <$> l) = 0%nat
  ↔ filter (λ r, top_comments r ≠ []) l = [].
Proof.
  induction l as [|r l IH]; [done|].
  rewrite fmap_cons, filter_cons. simpl.
  destruct (decide (top_comments r ≠ [])) as [Hne|He].
  - split; [|done]. destruct (top_comments r); [done|]. simpl. lia.
  - apply dec_stable in He. rewrite He. simpl. apply IH.
Qed.

(** X16: for a report the Orchestrator returned, the Exporter gives "no
    data" and leaves the disk alone exactly when the with-comments counter
    is 0; otherwise it hands the writer a workbook whose summary shows as
    many videos processed as were passed in and whose total is the sum of
    the entries' [comments_extracted], and it returns the path with the
    workbook on the disk when the writer saves it and raises when the
    writer does. *)
Theorem orchestrated_export (now now' : PyDate.datetime)
    (feeds : nat → feed (list thread_item)) (found : list Video.t)
    (top_comments_count : Z) (res : results)
    (excel_writer : gmap string workbook → string → workbook → write_outcome)
    (filename : option string) (fs : gmap string workbook) :
  extract_top_comments_from_videos now feeds found top_comments_count = Return res →
  (videos_with_comments (info res) = 0 ↔
   save_to_excel res excel_writer now' filename fs = Return (None, fs))
  ∧ (videos_with_comments (info res) ≠ 0 →
     ∃ book,
       take 3 (Summary book)
       = [ ("Total Videos Processed", IntCell (Z.of_nat (length found)));
           ("Videos with Comments", IntCell (videos_with_comments (info res)));
           ("Total Comments Extracted",
            IntCell (foldr Z.add 0 (comments_extracted <$> videos res))) ]
       ∧ match excel_writer fs (excel_filename now' filename) book with
         | Saved =>
             save_to_excel res excel_writer now' filename fs
             = Return (Some (excel_filename now' filename),
                       <[excel_filename now' filename := book]> fs)
         | WriteError e =>
             save_to_excel res excel_writer now' filename fs = Raise e
         end).
Proof.
  intros Hres. apply extract_loop_spec in Hres
    as (news & Hv & Hinfo & Hk & Ht & Hw & Hd & Hn).
  simpl in Hv, Ht, Hw. subst news.
  destruct (save_to_excel_unfold res excel_writer now' filename fs)
    as (rows & over & Hrows & Hover & Hlen & ->).
  assert (videos_with_comments (info res) = 0 ↔ rows = []) as Hzero.
  { rewrite Hw. rewrite <- length_zero_iff_nil, Hlen. unfold total_comments.
    rewrite total_comments_zero, <- length_zero_iff_nil. lia. }
  split.
  - rewrite Hzero. destruct rows; [done|]. cbv zeta.
    by destruct (excel_writer _ _ _).
  - intros Hne. destruct rows as [|row rows]; [by destruct Hne; apply Hzero|].
    assert (Z.of_nat (total_comments res)
            = foldr Z.add 0 (comments_extracted <$> videos res)) as Htotal.
    { unfold total_comments. clear -Hk.
      assert (∀ k r, videos res !! k = Some r →
                comments_extracted r = Z.of_nat (length (top_comments r))) as Hext.
      { intros k r Hr. by destruct (Hk k r Hr). }
      clear Hk. induction (videos res) as [|r l IH]; [done|].
      rewrite !fmap_cons. simpl. rewrite (Hext O r eq_refl), Nat2Z.inj_add.
      f_equal. apply IH. intros k r' Hr'. by apply (Hext (S k)). }
    cbv zeta.
    exists (mkWorkbook (row :: rows) (summary_sheet res (row :: rows)) over).
    split.
    + simpl. simpl in Hlen. by rewrite Ht, Hlen, Htotal.
    + by destruct (excel_writer _ _ _).
Qed.

Lemma orchestrated_export_witness :
  ∃ res,
    extract_top_comments_from_videos sample_now demo_threads
      [sample_video; sample_video] 3 = Return res
    ∧ (videos_with_comments (info res) = 0 ↔
       save_to_excel res writer_refuses sample_now None ∅ = Return (None, ∅))
    ∧ ∃ book,
        take 1 (Summary book) = [("Total Videos Processed", IntCell 2)]
        ∧ save_to_excel res writer_refuses sample_now None ∅ = Raise OSError.
Proof.
  eexists. split; [reflexivity|].
  destruct (orchestrated_export sample_now sample_now demo_threads
              [sample_video; sample_video] 3 _ writer_refuses None ∅ eq_refl)
    as [Hiff Hwrite].
  split; [exact Hiff|].
  destruct Hwrite as (book & Hsum & Hsave); [vm_compute; discriminate|].
  exists book. split; [|exact Hsave].
  apply (f_equal (take 1)) in Hsum. rewrite take_take in Hsum. exact Hsum.
Defined.

(** ** More on the Identifier Resolver *)

Lemma app_eq_inv_str (s1 t1 s2 t2 : string) :
  s1 +:+ t1 = s2 +:+ t2 →
  (∃ u, s2 = s1 +:+ u ∧ t1 = u +:+ t2) ∨ (∃ u, s1 = s2 +:+ u ∧ t2 = u +:+ t1).
Proof.
  revert s2. induction s1 as [|c s1 IH]; intros s2 H.
  - left. by exists s2.
  - destruct s2 as [|d s2].
    + right. by exists (String c s1).
    + rewrite !app_cons in H. injection H as -> H.
      destruct (IH _ H) as [(u & -> & ->)|(u & -> & ->)]; [left|right]; by exists u.
Qed.

Lemma contains_char_unfold (c d : ascii) (x : string) :
  PyStr.contains (String c "") (String d x)
  = bool_decide (c = d) || PyStr.contains (String c "") x.
Proof.
  change (PyStr.contains (String c "") (String d x))
    with (String.prefix (String c "") (String d x) || PyStr.contains (String c "") x).
  f_equal. destruct (decide (c = d)) as [->|Hne].
  - rewrite bool_decide_true by done. apply prefix_app. by exists x.
  - rewrite bool_decide_false by done. apply not_true_is_false.
    intros [u Hu]%prefix_app. rewrite app_cons in Hu. by injection Hu as -> _.
Qed.

Lemma contains_char_app (c : ascii) (x y : string) :
  PyStr.contains (String c "") (x +:+ y)
  = PyStr.contains (String c "") x || PyStr.contains (String c "") y.
Proof.
  induction x as [|d x IH]; [done|].
  rewrite app_cons, !contains_char_unfold, IH. by rewrite orb_assoc.
Qed.

Lemma contains_char_cons (c d : ascii) (x : string) :
  PyStr.contains (String c "") (String d x) = false →
  c ≠ d ∧ PyStr.contains (String c "") x = false.
Proof.
  rewrite contains_char_unfold. intros [Hd Hx]%orb_false_iff.
  split; [|done]. by apply bool_decide_eq_false in Hd.
Qed.

Lemma contains_prefix_of (sub y s : string) :
  PyStr.contains (sub +:+ y) s = true → PyStr.contains sub s = true.
Proof.
  intros [[b a] Hcut]%contains_cut. apply cut_Some in Hcut as ->.
  rewrite app_assoc_str. apply contains_app.
Qed.

(** The first occurrence is where the separator's first character first
    shows up, when it shows up nowhere before. *)
Lemma cut_char_free (c : ascii) (sep' b a : string) :
  PyStr.contains (String c "") b = false →
  PyStr.cut (String c sep') (b +:+ String c sep' +:+ a) = Some (b, a).
Proof.
  induction b as [|d b IH]; intros Hfree.
  - rewrite cut_unfold.
    assert (String.prefix (String c sep') ("" +:+ String c sep' +:+ a) = true) as ->.
    { apply prefix_app. by exists a. }
    change ("" +:+ String c sep' +:+ a) with (String c sep' +:+ a).
    by rewrite drop_app.
  - apply contains_char_cons in Hfree as [Hne Hfree].
    rewrite app_cons, cut_unfold.
    assert (String.prefix (String c sep') (String d (b +:+ String c sep' +:+ a))
            = false) as ->.
    { apply not_true_is_false. intros [u Hu]%prefix_app.
      rewrite app_cons in Hu. by injection Hu as -> _. }
    by rewrite IH.
Qed.

(** The same for a separator of two different characters whose second
    character does not occur before it. *)
Lemma cut_two_free (c1 c2 : ascii) (b a : string) :
  c1 ≠ c2 →
  PyStr.contains (String c2 "") b = false →
  PyStr.cut (String c1 (String c2 "")) (b +:+ String c1 (String c2 "") +:+ a)
  = Some (b, a).
Proof.
  intros Hne. induction b as [|d b IH]; intros Hfree.
  - rewrite cut_unfold.
    assert (String.prefix (String c1 (String c2 ""))
              ("" +:+ String c1 (String c2 "") +:+ a) = true) as ->.
    { apply prefix_app. by exists a. }
    change ("" +:+ String c1 (String c2 "") +:+ a)
      with (String c1 (String c2 "") +:+ a).
    by rewrite drop_app.
  - apply contains_char_cons in Hfree as [Hd Hfree].
    rewrite app_cons, cut_unfold.
    assert (String.prefix (String c1 (String c2 ""))
              (String d (b +:+ String c1 (String c2 "") +:+ a)) = false) as ->.
    { apply not_true_is_false. intros [u Hu]%prefix_app.
      rewrite !app_cons in Hu. injection Hu as -> Hu.
      destruct b as [|e b].
      - change ("" +:+ String c1 (String c2 "") +:+ a)
          with (String c1 (String c2 "" +:+ a)) in Hu.
        by injection Hu as -> _.
      - rewrite app_cons in Hu. injection Hu as -> _.
        by apply contains_char_cons in Hfree as [? _]. }
    by rewrite IH.
Qed.

(** What is read between a marker and a one-character stop. *)
Lemma upto_stop_upto (c : ascii) (marker x rest : string) :
  marker ≠ "" →
  PyStr.contains (String c "") marker = false →
  PyStr.contains (String c "") x = false →
  PyStr.contains marker x = false →
  (rest = "" ∨ ∃ r, rest = String c "" +:+ r) →
  upto (String c "") (upto marker (x +:+ rest)) = x.
Proof.
  intros Hmarker Hcm Hcx Hmx [->|[r ->]].
  { rewrite app_empty_r. unfold upto at 2.
    destruct (PyStr.cut marker x) as [[b a]|] eqn:E.
    - assert (PyStr.contains marker x = true); [|congruence].
      apply contains_cut. by eexists.
    - unfold upto. destruct (PyStr.cut (String c "") x) as [[b a]|] eqn:E'; [|done].
      assert (PyStr.contains (String c "") x = true); [|congruence].
      apply contains_cut. by eexists. }
  assert (∀ b'', upto (String c "") (x +:+ String c "" +:+ b'') = x) as Hstop.
  { intros b''. unfold upto. by rewrite cut_char_free. }
  unfold upto at 2.
  destruct (PyStr.cut marker (x +:+ String c "" +:+ r)) as [[b a]|] eqn:E;
    [|apply Hstop].
  apply cut_Some in E.
  destruct (app_eq_inv_str _ _ _ _ E) as [(u & -> & Hu)|(u & -> & Hu)].
  - destruct u as [|c' u].
    + destruct marker as [|m0 marker]; [done|].
      change ("" +:+ String m0 marker +:+ a) with (String m0 (marker +:+ a)) in Hu.
      change (String c "" +:+ r) with (String c r) in Hu. injection Hu as -> _.
      by apply contains_char_cons in Hcm as [? _].
    + change (String c "" +:+ r) with (String c r) in Hu.
      rewrite app_cons in Hu. injection Hu as <- _.
      change (String c u) with (String c "" +:+ u). apply Hstop.
  - destruct (app_eq_inv_str _ _ _ _ Hu) as [(w & -> & Hw)|(w & -> & Hw)].
    + assert (PyStr.contains marker (b +:+ marker +:+ w) = true); [|congruence].
      apply contains_app.
    + destruct w as [|c' w].
      * rewrite app_empty_r in Hmx.
        assert (PyStr.contains u (b +:+ u) = true); [|congruence].
        rewrite <- (app_empty_r u) at 2. apply contains_app.
      * change (String c "" +:+ r) with (String c r) in Hw.
        rewrite app_cons in Hw. injection Hw as <- _.
        assert (PyStr.contains (String c "") (u +:+ String c w) = true);
          [|congruence].
        apply (contains_app (String c "") u w).
Qed.

(** X17: the Resolver recovers the identifier from a watch URL built
    around it: for a front part without [=], an identifier without [&] and
    without [v=], and a remainder that is empty or starts with [&], the
    string front + [youtube.com/watch?v=] + identifier + remainder
    resolves to the identifier. *)
Theorem resolve_watch_url (front id rest : string) :
  PyStr.contains "=" front = false →
  PyStr.contains "&" id = false →
  PyStr.contains "v=" id = false →
  (rest = "" ∨ ∃ r, rest = "&" +:+ r) →
  extract_video_id (front +:+ "youtube.com/watch?v=" +:+ id +:+ rest)
  = Return (Some id).
Proof.
  intros Hfront Hamp Hv Hrest. rewrite extract_video_id_branches.
  rewrite contains_app.
  assert (front +:+ "youtube.com/watch?v=" +:+ id +:+ rest
          = (front +:+ "youtube.com/watch?") +:+ "v=" +:+ id +:+ rest) as ->.
  { by rewrite app_assoc_str. }
  rewrite cut_two_free; [|done|by rewrite contains_char_app, Hfront].
  simpl. by rewrite (upto_stop_upto "&" "v=").
Qed.

Lemma resolve_watch_url_witness :
  extract_video_id ("https://www." +:+ "youtube.com/watch?v=" +:+ "dQw4w9WgXcQ"
                    +:+ "&list=PL1&index=2")
  = Return (Some "dQw4w9WgXcQ").
Proof.
  apply resolve_watch_url; try reflexivity. right. by eexists.
Defined.

(** X18: the Resolver recovers the identifier from a short link built
    around it: for a string without [youtube.com/watch?v=], made of a
    front part without the letter [y], then [youtu.be/], an identifier
    without [?] and without [youtu.be/], and a remainder that is empty or
    starts with [?], the result is the identifier. *)
Theorem resolve_short_link (front id rest : string) :
  PyStr.contains "youtube.com/watch?v="
    (front +:+ "youtu.be/" +:+ id +:+ rest) = false →
  PyStr.contains "y" front = false →
  PyStr.contains "?" id = false →
  PyStr.contains "youtu.be/" id = false →
  (rest = "" ∨ ∃ r, rest = "?" +:+ r) →
  extract_video_id (front +:+ "youtu.be/" +:+ id +:+ rest) = Return (Some id).
Proof.
  intros Hwatch Hfront Hq Hm Hrest. rewrite extract_video_id_branches.
  rewrite Hwatch, contains_app, cut_char_free by done.
  simpl. by rewrite (upto_stop_upto "?" "youtu.be/").
Qed.

Lemma resolve_short_link_witness :
  extract_video_id ("https://" +:+ "youtu.be/" +:+ "dQw4w9WgXcQ" +:+ "?t=42")
  = Return (Some "dQw4w9WgXcQ").
Proof.
  apply resolve_short_link; try reflexivity. right. by eexists.
Defined.

(** X19: a string without [/] is never read as a URL: it resolves to
    itself when it has exactly 11 characters and to no match otherwise. *)
Theorem resolve_bare_string (s : string) :
  PyStr.contains "/" s = false →
  extract_video_id s
  = Return (if Nat.eqb (String.length s) 11 then Some s else None).
Proof.
  intros Hslash. rewrite extract_video_id_branches.
  assert (PyStr.contains "youtube.com/watch?v=" s = false) as ->.
  { apply not_true_is_false. intros H.
    apply (contains_suffix_of "youtube.com" "/watch?v=") in H.
    apply (contains_prefix_of "/" "watch?v=") in H. congruence. }
  assert (PyStr.contains "youtu.be/" s = false) as ->.
  { apply not_true_is_false. intros H.
    apply (contains_suffix_of "youtu.be" "/") in H. congruence. }
  by destruct (String.length s =? 11)%nat.
Qed.

Lemma resolve_bare_string_witness :
  extract_video_id "dQw4w9WgXcQ" = Return (Some "dQw4w9WgXcQ")
  ∧ extract_video_id "dQw4w9WgXcQ0" = Return None.
Proof.
  split.
  - exact (resolve_bare_string "dQw4w9WgXcQ" eq_refl).
  - exact (resolve_bare_string "dQw4w9WgXcQ0" eq_refl).
Defined.

(** ** The driver *)

Example main_demo :
  ∃ book,
    main sample_answers sample_clock demo_search demo_threads writer_saves ∅
    = Return (Some "youtube_top_comments_20240310_150405.xlsx",
              {["youtube_top_comments_20240310_150405.xlsx" := book]})
    ∧ length (Top_Comments book) = 5%nat.
Proof. eexists. split; reflexivity. Qed.

(** X20: a run of [main] that ends normally writes at most one file: either
    the disk is as before, or one workbook with at least one detail row
    was written under a path ending in [.xlsx], the writer having saved
    it, and every other file is as before.  The Exporter is never called
    in vain: a workbook is written exactly when the keyword is non-empty,
    the search found a video, and the report has a comment. *)
Theorem main_writes_one_workbook (a : answers) (c : clock)
    (search_feed : feed search_page) (comment_feeds : nat → feed (list thread_item))
    (excel_writer : gmap string workbook → string → workbook → write_outcome)
    (fs fs' : gmap string workbook) (written : option string) :
  main a c search_feed comment_feeds excel_writer fs = Return (written, fs') →
  match written with
  | None =>
      fs' = fs
      ∧ (keyword_answer a = ""
         ∨ ∃ window,
             chosen_window c a = Return window
             ∧ (search_videos_by_keyword (keyword_answer a) (max_videos a)
                  window.1 window.2 search_feed = []
                ∨ ∃ res,
                    extract_top_comments_from_videos (now_extraction c) comment_feeds
                      (search_videos_by_keyword (keyword_answer a) (max_videos a)
                         window.1 window.2 search_feed)
                      (top_comments_count_answer a) = Return res
                    ∧ total_comments res = 0%nat))
  | Some path =>
      keyword_answer a ≠ ""
      ∧ PyStr.endswith ".xlsx" path = true
      ∧ (∃ book, fs' = <[path := book]> fs ∧ Top_Comments book ≠ []
                 ∧ excel_writer fs path book = Saved)
      ∧ ∃ window res,
          chosen_window c a = Return window
          ∧ extract_top_comments_from_videos (now_extraction c) comment_feeds
              (search_videos_by_keyword (keyword_answer a) (max_videos a)
                 window.1 window.2 search_feed)
              (top_comments_count_answer a) = Return res
          ∧ videos res ≠ [] ∧ (0 < total_comments res)%nat
  end.
Proof.
  unfold main. destruct (keyword_answer a) as [|k0 ks] eqn:Hkey; simpl.
  { intros [= <- <-]. split; [done|]. by left. }
  destruct (chosen_window c a) as [window|]; [|done]. simpl.
  destruct (search_videos_by_keyword _ _ _ _ _) as [|v found] eqn:Hfound.
  { intros [= <- <-]. split; [done|]. right. exists window. split; [done|]. by left. }
  destruct (extract_top_comments_from_videos _ _ _ _) as [res|] eqn:Hres; [|done].
  simpl. fold (total_comments res).
  destruct (Nat.ltb_spec 0 (total_comments res)) as [Hpos|Hzero].
  - destruct (save_to_excel_unfold res excel_writer (now_export c)
                (Some (custom_filename a)) fs)
      as (rows & over & Hrows & Hover & Hlen & ->).
    destruct rows as [|row rows]; [simpl in Hlen; lia|]. cbv zeta.
    destruct (excel_writer _ _ _) eqn:Hsaved; [|done]. intros [= <- <-].
    split; [done|]. split; [apply excel_filename_xlsx|]. split.
    + eexists. split; [reflexivity|]. simpl. done.
    + exists window, res. split; [done|]. rewrite Hfound.
      split; [done|]. split; [|done].
      apply extract_loop_spec in Hres as (news & Hv & Hinfo & _).
      simpl in Hv. subst news. intros Hnil. by rewrite Hnil in Hinfo.
  - intros [= <- <-]. split; [done|]. right. exists window. split; [done|].
    right. exists res. rewrite Hfound. split; [done|]. lia.
Qed.

Lemma main_writes_one_workbook_witness :
  keyword_answer sample_answers ≠ ""
  ∧ PyStr.endswith ".xlsx" "youtube_top_comments_20240310_150405.xlsx" = true.
Proof.
  destruct (main_writes_one_workbook sample_answers sample_clock demo_search
              demo_threads writer_saves ∅ _
              (Some "youtube_top_comments_20240310_150405.xlsx")
              eq_refl) as (Hkey & Hx & _).
  split; [exact Hkey | exact Hx].
Defined.

(** X21: the date menu of [main]: a preset choice (1 to 5) gives a window
    that starts at 00:00:00 of the day 7, 30, 90, 180 or 365 days before
    the clock and has no end; the custom choice (6) with the end date left
    empty ends, for a clock in the years 1000 to 9999, at 23:59:59 of the
    clock's day, and its start is whatever the start date entered gives,
    no bound at all when it is empty too; every other answer, not only 7,
    gives no window. *)
Theorem main_date_menu (c : clock) (a : answers) :
  (∀ n t, (date_choice a, n) ∈ presets →
          PyDate.sub_days (now_range c) n = Return t →
          chosen_window c a
          = Return (Some (PyDate.strftime_ymd t +:+ "T00:00:00Z"), None))
  ∧ (date_choice a = "6" → end_date_answer a = "" →
     valid_date (now_today c) → 1000 ≤ PyDate.year (now_today c) →
     chosen_window c a
     = (start ← date_bound (now_range c) None (Some (start_date_answer a))
                  "T00:00:00Z";
        Return (start,
                Some (PyDate.strftime_ymd (now_today c) +:+ "T23:59:59Z")))
     ∧ (start_date_answer a = "" →
        chosen_window c a
        = Return (None, Some (PyDate.strftime_ymd (now_today c) +:+ "T23:59:59Z"))))
  ∧ (date_choice a ∉ ["1"; "2"; "3"; "4"; "5"; "6"] →
     chosen_window c a = Return (None, None)).
Proof.
  split; [|split].
  - intros n t Hn Ht. unfold chosen_window, presets in *.
    rewrite !elem_of_cons, elem_of_nil in Hn.
    assert (n ≠ 0) as Hn0 by (intros ->; destruct_or!; congruence).
    assert (preset_window c n
            = Return (Some (PyDate.strftime_ymd t +:+ "T00:00:00Z"), None)) as Hw.
    { unfold preset_window, get_date_range_iso.
      by rewrite (date_bound_relative _ n t None) by done. }
    destruct_or!; simplify_eq;
      match goal with H : date_choice a = _ |- _ => rewrite H end; exact Hw.
  - intros Hchoice Hend Hvalid Hy4. unfold chosen_window. rewrite Hchoice, Hend.
    simpl.
    unfold get_date_range_iso.
    rewrite (date_bound_absolute _ None (now_today c)) by done. split.
    + by destruct (date_bound _ _ _ _).
    + by intros ->.
  - intros Hnot. unfold chosen_window.
    repeat (rewrite bool_decide_false;
            [|intros E; apply Hnot; rewrite E; set_solver]).
    done.
Qed.

Lemma main_date_menu_witness :
  chosen_window sample_clock sample_answers
  = Return (Some "2024-01-05T00:00:00Z", Some "2024-03-10T23:59:59Z").
Proof.
  destruct (main_date_menu sample_clock sample_answers) as (_ & H & _).
  destruct H as [H _]; [reflexivity|reflexivity| | |exact H].
  - unfold valid_date. simpl. vm_compute. repeat split; discriminate.
  - simpl. lia.
Defined.

(** ** The calendar *)

Lemma all_from_spec (P : Z → bool) (count : nat) (n : Z) :
  all_from count n P = true → ∀ i, n ≤ i < n + Z.of_nat count → P i = true.
Proof.
  revert n. induction count as [|count IH]; intros n; simpl; [lia|].
  destruct (P n) eqn:E; [|done]. intros H i Hi.
  destruct (decide (i = n)) as [->|Hne]; [done|].
  apply (IH (n + 1) H). lia.
Qed.

Lemma month_day_all (leap : bool) :
  all_from 365 0 (month_day_checks leap) = true.
Proof. destruct leap; vm_compute; reflexivity. Qed.

Lemma month_day_checked (leap : bool) (n : Z) :
  0 ≤ n < 365 → month_day_checks leap n = true.
Proof.
  intros Hn. apply (all_from_spec _ _ _ (month_day_all leap)).
  change (Z.of_nat 365) with 365. lia.
Qed.

Lemma days_before_year_split (q n100 n4 n1 : Z) :
  0 ≤ n100 ≤ 3 → 0 ≤ n4 ≤ 24 → 0 ≤ n1 ≤ 3 →
  PyDate.days_before_year (400 * q + 1 + 100 * n100 + 4 * n4 + n1)
  = 146097 * q + 36524 * n100 + 1461 * n4 + 365 * n1.
Proof.
  intros H100 H4 H1. unfold PyDate.days_before_year. cbv zeta.
  Z.div_mod_to_equations. lia.
Qed.

Lemma is_leap_split (q n100 n4 n1 : Z) :
  0 ≤ n100 ≤ 3 → 0 ≤ n4 ≤ 24 → 0 ≤ n1 ≤ 3 →
  PyDate.is_leap (400 * q + 1 + 100 * n100 + 4 * n4 + n1)
  = (n1 =? 3) && (negb (n4 =? 24) || (n100 =? 3)).
Proof.
  intros H100 H4 H1. unfold PyDate.is_leap.
  destruct (Z.eqb_spec n1 3), (Z.eqb_spec n4 24), (Z.eqb_spec n100 3); simpl;
  repeat match goal with
  | |- context [?a mod ?b =? 0] => destruct (Z.eqb_spec (a mod b) 0)
  end; simpl; try done; exfalso; Z.div_mod_to_equations; lia.
Qed.

Lemma ord2ymd_unfold (n : Z) :
  PyDate.ord2ymd n
  = date_of_parts ((n - 1) / 146097)
      ((n - 1) mod 146097 / 36524)
      ((n - 1) mod 146097 mod 36524 / 1461)
      ((n - 1) mod 146097 mod 36524 mod 1461 / 365)
      ((n - 1) mod 146097 mod 36524 mod 1461 mod 365).
Proof.
  unfold PyDate.ord2ymd, date_of_parts, month_day,
    PyDate.DI400Y, PyDate.DI100Y, PyDate.DI4Y.
  cbv zeta. destruct (_ || _); [done|]. by destruct (_ <? _).
Qed.

Lemma date_of_parts_spec (n q r0 n100 r1 n4 r2 n1 r3 : Z) :
  n - 1 = 146097 * q + r0 → 0 ≤ r0 < 146097 →
  r0 = 36524 * n100 + r1 → 0 ≤ r1 < 36524 →
  r1 = 1461 * n4 + r2 → 0 ≤ r2 < 1461 →
  r2 = 365 * n1 + r3 → 0 ≤ r3 < 365 →
  ∃ y m d, date_of_parts q n100 n4 n1 r3 = (y, m, d)
           ∧ PyDate.ymd2ord y m d = n
           ∧ 1 ≤ m ≤ 12 ∧ 1 ≤ d ≤ PyDate.days_in_month y m
           ∧ (1 ≤ n ≤ PyDate.MAXORDINAL → 1 ≤ y ≤ 9999).
Proof.
  intros E0 B0 E1 B1 E2 B2 E3 B3.
  assert (0 ≤ n100 ≤ 4 ∧ 0 ≤ n4 ≤ 24 ∧ 0 ≤ n1 ≤ 4) as (H100 & H4 & H1) by lia.
  unfold date_of_parts, PyDate.ymd2ord, PyDate.days_in_month,
    PyDate.days_before_month, PyDate.MAXORDINAL.
  cbv zeta.
  destruct (Z.eqb_spec n1 4) as [Hn1|Hn1]; cbn [orb].
  { assert (r3 = 0 ∧ n4 ≤ 23 ∧ n100 ≤ 3) as (-> & H4' & H100') by lia. subst n1.
    eexists _, _, _. split; [reflexivity|].
    replace (q * 400 + 1 + n100 * 100 + n4 * 4 + 4 - 1)
      with (400 * q + 1 + 100 * n100 + 4 * n4 + 3) by lia.
    rewrite days_before_year_split, is_leap_split by lia.
    destruct (Z.eqb_spec n4 24); [lia|].
    change (PyDate.table PyDate.DAYS_BEFORE_MONTH 12) with 334.
    change (PyDate.table PyDate.DAYS_IN_MONTH 12) with 31.
    simpl.
    repeat split; lia. }
  destruct (Z.eqb_spec n100 4) as [Hn100|Hn100]; cbn [orb].
  { assert (r1 = 0 ∧ n4 = 0 ∧ r2 = 0 ∧ n1 = 0 ∧ r3 = 0) as (-> & -> & -> & -> & ->)
      by lia. subst n100.
    eexists _, _, _. split; [reflexivity|].
    replace (q * 400 + 1 + 4 * 100 + 0 * 4 + 0 - 1)
      with (400 * q + 1 + 100 * 3 + 4 * 24 + 3) by lia.
    rewrite days_before_year_split, is_leap_split by lia.
    change (PyDate.table PyDate.DAYS_BEFORE_MONTH 12) with 334.
    change (PyDate.table PyDate.DAYS_IN_MONTH 12) with 31.
    simpl.
    repeat split; lia. }
  pose proof (month_day_checked ((n1 =? 3) && (negb (n4 =? 24) || (n100 =? 3))) r3 B3)
    as Hmd.
  unfold month_day_checks in Hmd.
  destruct (month_day _ r3) as [m d]. cbn [fst snd].
  eexists _, _, _. split; [reflexivity|].
  replace (q * 400 + 1 + n100 * 100 + n4 * 4 + n1)
    with (400 * q + 1 + 100 * n100 + 4 * n4 + n1) by lia.
  rewrite days_before_year_split, is_leap_split by lia.
  generalize dependent ((n1 =? 3) && (negb (n4 =? 24) || (n100 =? 3))).
  intros leap Hmd.
  repeat (apply andb_true_iff in Hmd as [Hmd ?]).
  repeat match goal with
  | H : (_ <=? _) = true |- _ => apply Z.leb_le in H
  | H : (_ =? _) = true |- _ => apply Z.eqb_eq in H
  end.
  repeat split; lia.
Qed.

Lemma ord2ymd_spec (n : Z) :
  ∃ y m d, PyDate.ord2ymd n = (y, m, d)
           ∧ PyDate.ymd2ord y m d = n
           ∧ 1 ≤ m ≤ 12 ∧ 1 ≤ d ≤ PyDate.days_in_month y m
           ∧ (1 ≤ n ≤ PyDate.MAXORDINAL → 1 ≤ y ≤ 9999).
Proof.
  rewrite ord2ymd_unfold.
  apply (date_of_parts_spec n _ ((n - 1) mod 146097) _
           ((n - 1) mod 146097 mod 36524) _
           ((n - 1) mod 146097 mod 36524 mod 1461));
    first [apply Z.div_mod; lia | apply Z.mod_pos_bound; lia].
Qed.


Lemma sub_days_spec (now : PyDate.datetime) (n : Z) :
  match PyDate.sub_days now n with
  | Return t =>
      valid_date t ∧ toordinal t = toordinal now - n
      ∧ PyDate.hour t = PyDate.hour now ∧ PyDate.minute t = PyDate.minute now
      ∧ PyDate.second t = PyDate.second now
  | Raise e =>
      e = OverflowError
      ∧ (999999999 < Z.abs n ∨ ¬ 1 ≤ toordinal now - n ≤ PyDate.MAXORDINAL)
  end.
Proof.
  unfold PyDate.sub_days. fold (toordinal now).
  destruct (Z.leb_spec (Z.abs n) 999999999) as [Habs|Habs]; [|split; [done|lia]].
  destruct (Z.leb_spec 1 (toordinal now - n)) as [Hlo|Hlo]; simpl;
    [|split; [done|lia]].
  destruct (Z.leb_spec (toordinal now - n) PyDate.MAXORDINAL) as [Hhi|Hhi];
    [|split; [done|lia]].
  destruct (ord2ymd_spec (toordinal now - n)) as (y & m & d & -> & Hord & Hm & Hd & Hy).
  pose proof (Hy ltac:(lia)) as Hyear.
  unfold valid_date, toordinal in *. simpl. repeat split; lia.
Qed.

(** X22: a bound that comes from a relative offset names the day exactly
    that many days before the clock's day: it is the ['%Y-%m-%d'] form of
    an existing date whose ordinal is the ordinal of the clock's date minus
    the offset, followed by [T00:00:00Z] on the start side and by
    [T23:59:59Z] on the end side. *)
Theorem relative_bound_day (now : PyDate.datetime) (n : Z)
    (days_ago : option Z) (date : option string) (a b : option string) :
  n ≠ 0 →
  (get_date_range_iso now (Some n) days_ago None date = Return (a, b) →
   ∃ t, a = Some (PyDate.strftime_ymd t +:+ "T00:00:00Z")
        ∧ valid_date t ∧ toordinal t = toordinal now - n)
  ∧ (get_date_range_iso now days_ago (Some n) date None = Return (a, b) →
     ∃ t, b = Some (PyDate.strftime_ymd t +:+ "T23:59:59Z")
          ∧ valid_date t ∧ toordinal t = toordinal now - n).
Proof.
  intros Hn.
  assert (∀ suffix r, date_bound now (Some n) None suffix = Return r →
            ∃ t, r = Some (PyDate.strftime_ymd t +:+ suffix)
                 ∧ valid_date t ∧ toordinal t = toordinal now - n) as Hbound.
  { intros suffix r. unfold date_bound. simpl.
    destruct (Z.eqb_spec n 0); [done|]. simpl.
    pose proof (sub_days_spec now n) as Hsub.
    destruct (PyDate.sub_days now n) as [t|]; [|done]. simpl.
    intros [= <-]. exists t. by destruct Hsub as (? & ? & _). }
  unfold get_date_range_iso. split.
  - destruct (date_bound now (Some n) None "T00:00:00Z") as [a'|] eqn:Ea; [|done].
    simpl. destruct (date_bound now days_ago date "T23:59:59Z"); [|done].
    simpl. intros [= <- <-]. by apply Hbound.
  - destruct (date_bound now days_ago date "T00:00:00Z"); [|done]. simpl.
    destruct (date_bound now (Some n) None "T23:59:59Z") as [b'|] eqn:Eb; [|done].
    simpl. intros [= <- <-]. by apply Hbound.
Qed.

Lemma relative_bound_day_witness :
  ∃ t, Some "2024-02-29T00:00:00Z" = Some (PyDate.strftime_ymd t +:+ "T00:00:00Z")
       ∧ valid_date t ∧ toordinal t = toordinal sample_now - 10.
Proof.
  exact (proj1 (relative_bound_day sample_now 10 None None
                  (Some "2024-02-29T00:00:00Z") None ltac:(lia)) eq_refl).
Defined.
